(** * workstation-todo-service: the todo and list controllers and token issuance

    A shallow embedding of [src/controllers/todo.ts], [src/controllers/list.ts]
    and [generateUserTokens].  Each controller method is a program in a small
    state-and-exception monad over the document store; every store call is
    recorded, so that statements about "the filter sent to the store" are
    statements about the recorded call. *)

From Stdlib Require Import ZArith Lia.
From stdpp Require Import base option list strings gmap fin_maps pretty.

Local Open Scope string_scope.
Local Open Scope list_scope.
Local Open Scope Z_scope.

(** ** JavaScript values of a request *)

(** The JSON scalars that reach the controllers through [req.body]; nested
    objects and arrays are not modelled (numbers are the integral ones). *)
Inductive JSValue : Type :=
  | JUndefined
  | JNull
  | JBool (b : bool)
  | JNum (n : Z)
  | JStr (s : string).

#[global] Instance JSValue_eq_dec : EqDecision JSValue.
Proof. solve_decision. Defined.

(** ToBoolean: what [!v], [v || w] and [if (v)] test. *)
Definition truthy (v : JSValue) : bool :=
  match v with
  | JUndefined | JNull => false
  | JBool b => b
  | JNum n => negb (n =? 0)
  | JStr s => negb (String.eqb s "")
  end.

Definition falsy (v : JSValue) : bool := negb (truthy v).

(** [a || b] *)
Definition js_or (a b : JSValue) : JSValue := if truthy a then a else b.

(** String(v), as a template literal [`${v}`] prints it. *)
Definition js_toString (v : JSValue) : string :=
  match v with
  | JUndefined => "undefined"
  | JNull => "null"
  | JBool true => "true"
  | JBool false => "false"
  | JNum n => pretty n
  | JStr s => s
  end.

(** A property read [o.k] on a parsed object: [undefined] when absent. *)
Definition prop (o : gmap string JSValue) (k : string) : JSValue :=
  default JUndefined (o !! k).

(** [req.params] and [req.query] hold strings. *)
Definition str_prop (o : gmap string string) (k : string) : JSValue :=
  from_option JStr JUndefined (o !! k).

(** ** Stored values and documents *)

(** A Types.ObjectId, identified by its 24-digit hexadecimal form. *)
Record ObjectId : Type := mkObjectId { toHexString : string }.

#[global] Instance ObjectId_eq_dec : EqDecision ObjectId.
Proof. solve_decision. Defined.

Inductive Bson : Type :=
  | BNull
  | BBool (b : bool)
  | BNum (n : Z)
  | BStr (s : string)
  | BDate (t : Z)          (* a Date, in milliseconds since the epoch *)
  | BOid (o : ObjectId).

#[global] Instance Bson_eq_dec : EqDecision Bson.
Proof. solve_decision. Defined.

(** A document of the schema-flexible store: field name to value. *)
Abbreviation Doc := (gmap string Bson).

(** A field of a document interpolated in a message, [`${doc.name}`]. *)
Definition field_toString (d : Doc) (k : string) : string :=
  match d !! k with
  | None => "undefined"
  | Some BNull => "null"
  | Some (BBool true) => "true"
  | Some (BBool false) => "false"
  | Some (BNum n) => pretty n
  | Some (BStr s) => s
  | Some (BDate t) => pretty t
  | Some (BOid o) => toHexString o
  end.

(** A value of the request as it is put in an update document; a key whose
    value is [undefined] is not sent.  The casting of values by the schema of
    a model is not part of this embedding: a value is stored as it was sent. *)
Definition bson_of_js (v : JSValue) : option Bson :=
  match v with
  | JUndefined => None
  | JNull => Some BNull
  | JBool b => Some (BBool b)
  | JNum n => Some (BNum n)
  | JStr s => Some (BStr s)
  end.

Definition set_field (k : string) (v : option Bson) (d : Doc) : Doc :=
  match v with
  | Some b => <[k := b]> d
  | None => d
  end.

(** ** Filters *)

(** The query operators the controllers send: [$gte] and [$lte]. *)
Inductive QueryOp : Type := OpGte | OpLte.

#[global] Instance QueryOp_eq_dec : EqDecision QueryOp.
Proof. solve_decision. Defined.

Inductive Cond : Type :=
  | CEq (v : Bson)                          (* { field: v } *)
  | COps (ops : list (QueryOp * Bson)).     (* { field: { $op: v, ... } } *)

#[global] Instance Cond_eq_dec : EqDecision Cond.
Proof. solve_decision. Defined.

#[warnings="-register-all"]
Inductive Filter : Type :=
  | FFields (m : gmap string Cond)          (* { f1: c1, f2: c2, ... } *)
  | FAnd (fs : list Filter).                (* { $and: [ ... ] } *)

(** Comparison operators hold between values of the same type only. *)
Definition op_holds (v : option Bson) (ob : QueryOp * Bson) : bool :=
  match ob, v with
  | (OpGte, BDate b), Some (BDate d) => b <=? d
  | (OpLte, BDate b), Some (BDate d) => d <=? b
  | (OpGte, BNum b), Some (BNum d) => b <=? d
  | (OpLte, BNum b), Some (BNum d) => d <=? b
  | _, _ => false
  end.

Definition cond_holds (c : Cond) (v : option Bson) : bool :=
  match c with
  | CEq b => bool_decide (v = Some b)
  | COps ops => forallb (op_holds v) ops
  end.

Fixpoint matches (f : Filter) (d : Doc) : bool :=
  match f with
  | FFields m => bool_decide (map_Forall (λ k c, cond_holds c (d !! k) = true) m)
  | FAnd fs => forallb (λ g, matches g d) fs
  end.

(** ** Query options and the store's sort order *)

Record QueryOptions : Type := mkQueryOptions {
  limit : nat;
  skip : nat;
  sort : list (string * Z)
}.

#[global] Instance QueryOptions_eq_dec : EqDecision QueryOptions.
Proof. solve_decision. Defined.

(** The store compares values of different types by type first (null and
    missing, numbers, strings, object ids, booleans, dates). *)
Definition bson_rank (v : option Bson) : Z :=
  match v with
  | None | Some BNull => 0
  | Some (BNum _) => 1
  | Some (BStr _) => 2
  | Some (BOid _) => 3
  | Some (BBool _) => 4
  | Some (BDate _) => 5
  end.

Definition bson_compare (a b : option Bson) : comparison :=
  match a, b with
  | Some (BNum x), Some (BNum y) => Z.compare x y
  | Some (BStr x), Some (BStr y) => String.compare x y
  | Some (BOid x), Some (BOid y) => String.compare (toHexString x) (toHexString y)
  | Some (BBool x), Some (BBool y) => Bool.compare x y
  | Some (BDate x), Some (BDate y) => Z.compare x y
  | _, _ => Z.compare (bson_rank a) (bson_rank b)
  end.

(** Documents compared by a sort specification [{ k1: dir1, k2: dir2, ... }]. *)
Fixpoint doc_compare (spec : list (string * Z)) (a b : Doc) : comparison :=
  match spec with
  | [] => Eq
  | (k, dir) :: rest =>
      match bson_compare (a !! k) (b !! k) with
      | Eq => doc_compare rest a b
      | c => if dir <? 0 then CompOpp c else c
      end
  end.

Fixpoint sort_insert (spec : list (string * Z)) (d : Doc) (l : list Doc) : list Doc :=
  match l with
  | [] => [d]
  | e :: r =>
      match doc_compare spec d e with
      | Gt => e :: sort_insert spec d r
      | _ => d :: e :: r
      end
  end.

Definition sort_docs (spec : list (string * Z)) (l : list Doc) : list Doc :=
  foldr (sort_insert spec) [] l.

(** ** The collections *)

Definition find_docs (f : Filter) (o : option QueryOptions) (l : list Doc) : list Doc :=
  let hits := List.filter (matches f) l in
  match o with
  | None => hits
  | Some q => firstn (limit q) (skipn (skip q) (sort_docs (sort q) hits))
  end.

Definition count_docs (f : Filter) (l : list Doc) : nat :=
  length (List.filter (matches f) l).

(** The first document that [p] accepts is replaced by its image under [u];
    the result is the new document ([{ new: true }]) and the new collection. *)
Fixpoint update_first (p : Doc → bool) (u : Doc → Doc) (l : list Doc)
  : option (Doc * list Doc) :=
  match l with
  | [] => None
  | d :: r =>
      if p d then Some (u d, u d :: r)
      else match update_first p u r with
           | Some (d', r') => Some (d', d :: r')
           | None => None
           end
  end.

(** The first document that [p] accepts is removed and returned. *)
Fixpoint delete_first (p : Doc → bool) (l : list Doc) : option (Doc * list Doc) :=
  match l with
  | [] => None
  | d :: r =>
      if p d then Some (d, r)
      else match delete_first p r with
           | Some (d', r') => Some (d', d :: r')
           | None => None
           end
  end.

(** An update document [{ k1: v1, ... }] sets the listed fields. *)
Definition apply_update (upd : Doc) (d : Doc) : Doc := upd ∪ d.

(** ** The store, the recorded calls and the controller monad *)

Inductive Model : Type := Todo | List.

#[global] Instance Model_eq_dec : EqDecision Model.
Proof. solve_decision. Defined.

(** One call of a model method, with the arguments it was given. *)
Inductive Call : Type :=
  | CallFind (m : Model) (conditions : Filter) (options : option QueryOptions)
  | CallCountDocuments (m : Model) (conditions : Filter)
  | CallFindOneAndUpdate (m : Model) (filter : Filter) (update : Doc)
  | CallFindOneAndDelete (m : Model) (filter : Filter).

Record World : Type := mkWorld {
  todos : list Doc;
  lists : list Doc;
  calls : list Call       (* the calls made so far, oldest first *)
}.

Definition collection (m : Model) (w : World) : list Doc :=
  match m with Todo => todos w | List => lists w end.

Definition set_collection (m : Model) (l : list Doc) (w : World) : World :=
  match m with
  | Todo => mkWorld l (lists w) (calls w)
  | List => mkWorld (todos w) l (calls w)
  end.

Definition record_call (c : Call) (w : World) : World :=
  mkWorld (todos w) (lists w) (calls w ++ [c]).

(** The result of a field validator, [{ error, text? }]. *)
Record Validation : Type := mkValidation { error : bool; text : option string }.

(** What a controller throws: an error made by [createError(status, ...)]
    with its [message] and [validations] properties, or any other exception
    (a library's TypeError, BSONError or CastError).  [createError] copies
    the properties it is given onto the error, so a [message] property that is
    undefined leaves the error without a message ([None]); called with no
    message at all it gives the error the reason phrase of the status,
    'Bad Request' for 400. *)
Inductive Thrown : Type :=
  | HttpError (status : nat) (message : option string)
              (validations : list (string * Validation))
  | Exception (name : string).

Inductive Result (A : Type) : Type :=
  | Ok (a : A)
  | Throw (e : Thrown).
Arguments Ok {A} a.
Arguments Throw {A} e.

Definition M (A : Type) : Type := World → Result A * World.

Definition ret {A} (a : A) : M A := λ w, (Ok a, w).
Definition throw {A} (e : Thrown) : M A := λ w, (Throw e, w).
Definition bind {A B} (c : M A) (k : A → M B) : M B :=
  λ w, match c w with
       | (Ok a, w') => k a w'
       | (Throw e, w') => (Throw e, w')
       end.
Declare Scope ctrl_scope.
Delimit Scope ctrl_scope with ctrl.
Notation "'let*' x ':=' c 'in' k" := (bind c (λ x, k))
  (at level 10, x name, c at level 100, k at level 200) : ctrl_scope.

(** An operation of a library that either returns or throws. *)
Definition or_throw {A} (name : string) (o : option A) : M A :=
  match o with
  | Some a => ret a
  | None => throw (Exception name)
  end.

Definition Model_find (m : Model) (f : Filter) (o : option QueryOptions) : M (list Doc) :=
  λ w, (Ok (find_docs f o (collection m w)), record_call (CallFind m f o) w).

Definition Model_countDocuments (m : Model) (f : Filter) : M nat :=
  λ w, (Ok (count_docs f (collection m w)), record_call (CallCountDocuments m f) w).

(** [findOneAndUpdate(filter, update, { new: true })] *)
Definition Model_findOneAndUpdate (m : Model) (f : Filter) (upd : Doc) : M (option Doc) :=
  λ w, let w1 := record_call (CallFindOneAndUpdate m f upd) w in
       match update_first (matches f) (apply_update upd) (collection m w) with
       | Some (d, l) => (Ok (Some d), set_collection m l w1)
       | None => (Ok None, w1)
       end.

Definition Model_findOneAndDelete (m : Model) (f : Filter) : M (option Doc) :=
  λ w, let w1 := record_call (CallFindOneAndDelete m f) w in
       match delete_first (matches f) (collection m w) with
       | Some (d, l) => (Ok (Some d), set_collection m l w1)
       | None => (Ok None, w1)
       end.

(** ** Requests and responses *)

(** The user that the authentication middleware attaches to the request. *)
Record AuthUser : Type := mkAuthUser { _id : ObjectId }.

Record Request : Type := mkRequest {
  params : gmap string string;
  query : gmap string string;
  body : gmap string JSValue;
  user : AuthUser
}.

Definition with_user (u : AuthUser) (req : Request) : Request :=
  mkRequest (params req) (query req) (body req) u.

Inductive Body : Type :=
  | BodyMany (total : nat) (key : string) (docs : list Doc)     (* { total, todos } *)
  | BodyOne (message : option string) (key : string) (doc : Doc). (* { message, todo } *)

(** How a controller method ends: [res.status(s).json(b)] or [next(err)]. *)
Inductive Outcome : Type :=
  | Json (status : nat) (b : Body)
  | Next (err : Thrown).

(** The [try { ... } catch (err) { return next(err); }] around every method. *)
Definition handler (c : M Outcome) : World → Outcome * World :=
  λ w, match c w with
       | (Ok o, w') => (o, w')
       | (Throw e, w') => (Next e, w')
       end.

(** The double quote, for messages such as [Completed "name"]. *)
Definition dq : string := String (Ascii.ascii_of_nat 34) "".

(** ** What the controllers import *)

Module TodoValidator.
Record t : Type := mk {
  Id : JSValue → Validation;
  UserId : JSValue → Validation;
  ListId : JSValue → Validation;
  Name : JSValue → Validation;
  Notes : JSValue → Validation;
  URL : JSValue → Validation;
  Due : JSValue → Validation;
  Priority : JSValue → Validation
}.
End TodoValidator.

Module ListValidator.
Record t : Type := mk {
  Id : JSValue → Validation;
  UserId : JSValue → Validation;
  Name : JSValue → Validation;
  Color : JSValue → Validation
}.
End ListValidator.

(** The functions of [@/utils/validator], [@/types/todo], mongoose and moment
    that the controllers call.  Their code is not part of the controllers;
    the controllers are modelled over any behaviour of them. *)
Class Externals : Type := mkExternals {
  (** [@/utils/validator] *)
  todoValidator : TodoValidator.t;
  listValidator : ListValidator.t;
  (** [Object.values(TodoPriority)] and [TodoPriority.NONE] *)
  TodoPriority_values : list JSValue;
  TodoPriority_NONE : JSValue;
  (** [Types.ObjectId.isValid(s)] *)
  ObjectId_isValid : string → bool;
  (** [new Types.ObjectId(v)]; [None] when the constructor throws *)
  ObjectId_new : JSValue → option ObjectId;
  (** [moment().toDate()], the time of the request *)
  moment_now : Z;
  (** [moment(s, 'MM-DD-YYYY')]; [None] when [isValid()] is false *)
  moment_MM_DD_YYYY : string → option Z;
  (** [m.set({ h: 0, m: 0, s: 0 })] *)
  moment_set_hms0 : Z → Z;
  (** [m.add(1, 'd')] *)
  moment_add_1d : Z → Z;
  (** [moment(v).toDate()]; [None] for an invalid date *)
  moment_toDate : JSValue → option Z
}.

(** ** The controllers *)

Section Controllers.
Context `{E : Externals}.
Local Open Scope ctrl_scope.

(** [(req.query.k as string) || null] *)
Definition query_or_null (req : Request) (k : string) : option string :=
  match query req !! k with
  | Some s => if String.eqb s "" then None else Some s
  | None => None
  end.

(** [req.params.todoId || req.query.todoId || req.body._id] *)
Definition requested_id (req : Request) (k : string) : JSValue :=
  js_or (js_or (str_prop (params req) k) (str_prop (query req) k)) (prop (body req) "_id").

(** [req.params.todoId || req.query.todoId] *)
Definition requested_id_url (req : Request) (k : string) : JSValue :=
  js_or (str_prop (params req) k) (str_prop (query req) k).

(** [Object.values(validations).every((v) => v.error === false)] *)
Definition all_valid (validations : list (string * Validation)) : bool :=
  forallb (λ kv, negb (error (snd kv))) validations.

Definition id_filter (oid : ObjectId) : Filter :=
  FFields {[ "_id" := CEq (BOid oid) ]}.

Definition not_found (kind : string) (id : JSValue) : string :=
  kind +:+ " with ID " +:+ js_toString id +:+ " is not found!".

Definition quoted_name (d : Doc) : string := dq +:+ field_toString d "name" +:+ dq.

(** *** src/controllers/todo.ts *)

Definition GetAllTodos_conditions (req : Request) : M (gmap string Cond) :=
  let conditions : gmap string Cond :=
    <["due" := CEq (BDate moment_now)]> {[ "completed" := CEq (BBool false) ]} in
  let options_listId : option string := query_or_null req "listId" in
  let options_due : string := default "all" (query_or_null req "due") in
  (* List ID Options *)
  let* conditions :=
    match options_listId with
    | Some listId =>
        if ObjectId_isValid listId then
          let* oid := or_throw "BSONError" (ObjectId_new (JStr listId)) in
          ret (<["listId" := CEq (BOid oid)]> conditions)
        else throw (HttpError 400 (Some "Invalid list ID!") [])
    | None => ret conditions
    end in
  (* Due Option *)
  if String.eqb options_due "all" then ret (delete "due" conditions)
  else
    match moment_MM_DD_YYYY options_due with
    | Some parsed =>
        let due := moment_set_hms0 parsed in
        ret (<["due" := COps [(OpGte, BDate due); (OpLte, BDate (moment_add_1d due))]]>
               conditions)
    | None => throw (HttpError 400 (Some "Invalid due option!") [])
    end.

Definition GetAllTodos (req : Request) : World → Outcome * World :=
  handler (
    let* conditions := GetAllTodos_conditions req in
    let* found := Model_find Todo (FFields conditions) None in
    let* total := Model_countDocuments Todo (FFields conditions) in
    ret (Json 200 (BodyMany total "todos" found))).

(** The form data of UpdateTodo, in the order of its validations. *)
Definition UpdateTodo_formData (req : Request) : list (string * JSValue) :=
  [ ("_id", requested_id req "todoId");
    ("userId", JStr (toHexString (_id (user req))));
    ("listId", prop (body req) "listId");
    ("name", prop (body req) "name");
    ("notes", js_or (prop (body req) "notes") JNull);
    ("url", js_or (prop (body req) "url") JNull);
    ("due", prop (body req) "due");
    ("priority", js_or (prop (body req) "priority") TodoPriority_NONE) ].

Definition formData_get (formData : list (string * JSValue)) (k : string) : JSValue :=
  match List.find (λ kv, String.eqb (fst kv) k) formData with
  | Some kv => snd kv
  | None => JUndefined
  end.

Definition UpdateTodo_validations (req : Request) : list (string * Validation) :=
  let formData := formData_get (UpdateTodo_formData req) in
  [ ("_id", TodoValidator.Id todoValidator (formData "_id"));
    ("userId", TodoValidator.UserId todoValidator (formData "userId"));
    ("listId", TodoValidator.ListId todoValidator (formData "listId"));
    ("name", TodoValidator.Name todoValidator (formData "name"));
    ("notes", TodoValidator.Notes todoValidator (formData "notes"));
    ("url", TodoValidator.URL todoValidator (formData "url"));
    ("due", TodoValidator.Due todoValidator (formData "due"));
    ("priority", TodoValidator.Priority todoValidator (formData "priority")) ].

Definition UpdateTodo (req : Request) : World → Outcome * World :=
  handler (
    let formData := formData_get (UpdateTodo_formData req) in
    let validations := UpdateTodo_validations req in
    if negb (all_valid validations) then
      throw (HttpError 400 (Some "Bad Request") validations)
    else
      let* oid := or_throw "BSONError" (ObjectId_new (formData "_id")) in
      let* uid := or_throw "BSONError" (ObjectId_new (formData "userId")) in
      let* due := or_throw "CastError" (moment_toDate (formData "due")) in
      let upd : Doc :=
        set_field "listId" (bson_of_js (formData "listId"))
          (<["userId" := BOid uid]>
             (set_field "name" (bson_of_js (formData "name"))
                (set_field "notes" (bson_of_js (formData "notes"))
                   (set_field "url" (bson_of_js (formData "url"))
                      (<["due" := BDate due]>
                         (set_field "priority" (bson_of_js (formData "priority")) ∅)))))) in
      let* updatedTodo := Model_findOneAndUpdate Todo (id_filter oid) upd in
      match updatedTodo with
      | None => throw (HttpError 404 (Some (not_found "Todo" (formData "_id"))) [])
      | Some t =>
          ret (Json 200 (BodyOne (Some ("Updated " +:+ quoted_name t)) "todo" t))
      end).

Definition CompleteTodo (req : Request) : World → Outcome * World :=
  handler (
    let id := requested_id req "todoId" in
    let validation := TodoValidator.Id todoValidator id in
    if error validation then throw (HttpError 400 (text validation) [])
    else
      let* oid := or_throw "BSONError" (ObjectId_new id) in
      let* completedTodo :=
        Model_findOneAndUpdate Todo (id_filter oid) {[ "completed" := BBool true ]} in
      match completedTodo with
      | None => throw (HttpError 404 (Some (not_found "Todo" id)) [])
      | Some t =>
          ret (Json 200 (BodyOne (Some ("Completed " +:+ quoted_name t)) "todo" t))
      end).

Definition UncompleteTodo (req : Request) : World → Outcome * World :=
  handler (
    let id := requested_id req "todoId" in
    let validation := TodoValidator.Id todoValidator id in
    if error validation then throw (HttpError 400 (text validation) [])
    else
      let* oid := or_throw "BSONError" (ObjectId_new id) in
      let* uncompletedTodo :=
        Model_findOneAndUpdate Todo (id_filter oid) {[ "completed" := BBool false ]} in
      match uncompletedTodo with
      | None => throw (HttpError 404 (Some (not_found "Todo" id)) [])
      | Some t =>
          ret (Json 200 (BodyOne (Some ("Uncompleted " +:+ quoted_name t)) "todo" t))
      end).

Definition UpdateTodoPriority (req : Request) : World → Outcome * World :=
  handler (
    let id := requested_id req "todoId" in
    let validation := TodoValidator.Id todoValidator id in
    if error validation then throw (HttpError 400 (text validation) [])
    else
      let priority := prop (body req) "priority" in
      if negb (truthy priority) then
        throw (HttpError 400 (Some "Priority cannot be empty!") [])
      else if negb (bool_decide (priority ∈ TodoPriority_values)) then
        throw (HttpError 400 (Some "Invalid priority option!") [])
      else
        let* oid := or_throw "BSONError" (ObjectId_new id) in
        let* foundTodo :=
          Model_findOneAndUpdate Todo (id_filter oid)
            (set_field "priority" (bson_of_js priority) ∅) in
        match foundTodo with
        | None => throw (HttpError 404 (Some (not_found "Todo" id)) [])
        | Some t =>
            ret (Json 200
                   (BodyOne (Some ("Updated " +:+ quoted_name t +:+ " priority!")) "todo" t))
        end).

Definition UpdateTodoList (req : Request) : World → Outcome * World :=
  handler (
    let id := requested_id req "todoId" in
    let validation := TodoValidator.Id todoValidator id in
    if error validation then throw (HttpError 400 (text validation) [])
    else
      let listId := prop (body req) "listId" in
      let listIdValidation := TodoValidator.ListId todoValidator listId in
      if error listIdValidation then throw (HttpError 400 (text listIdValidation) [])
      else
        let* oid := or_throw "BSONError" (ObjectId_new id) in
        let* newList :=
          match listId with
          | JNull => ret BNull
          | _ => let* l := or_throw "BSONError" (ObjectId_new listId) in ret (BOid l)
          end in
        let* foundTodo :=
          Model_findOneAndUpdate Todo (id_filter oid) {[ "listId" := newList ]} in
        match foundTodo with
        | None => throw (HttpError 404 (Some (not_found "Todo" id)) [])
        | Some t =>
            ret (Json 200
                   (BodyOne (Some ("Updated " +:+ quoted_name t +:+ " list!")) "todo" t))
        end).

Definition DeleteTodo (req : Request) : World → Outcome * World :=
  handler (
    let id := requested_id_url req "todoId" in
    let validation := TodoValidator.Id todoValidator id in
    if error validation then throw (HttpError 400 (text validation) [])
    else
      let* oid := or_throw "BSONError" (ObjectId_new id) in
      let* deletedTodo := Model_findOneAndDelete Todo (id_filter oid) in
      match deletedTodo with
      | None => throw (HttpError 404 (Some (not_found "Todo" id)) [])
      | Some t =>
          ret (Json 200 (BodyOne (Some ("Deleted " +:+ quoted_name t)) "todo" t))
      end).

(** *** src/controllers/list.ts *)

Definition GetAllLists_options : QueryOptions :=
  {| limit := 100; skip := 0; sort := [("due", -1)] |}.

Definition GetAllLists (req : Request) : World → Outcome * World :=
  handler (
    let userId := _id (user req) in
    let options := GetAllLists_options in
    let conditions := FFields {[ "userId" := CEq (BOid userId) ]} in
    let* total := Model_countDocuments List conditions in
    let* found := Model_find List conditions (Some options) in
    ret (Json 200 (BodyMany total "lists" found))).

(** [{ $and: [{ _id }, { userId }] }] *)
Definition owned_filter (oid uid : ObjectId) : Filter :=
  FAnd [ FFields {[ "_id" := CEq (BOid oid) ]};
         FFields {[ "userId" := CEq (BOid uid) ]} ].

Definition UpdateList_formData (req : Request) : list (string * JSValue) :=
  [ ("_id", requested_id req "listId");
    ("userId", JStr (toHexString (_id (user req))));
    ("name", prop (body req) "name");
    ("color", prop (body req) "color") ].

Definition UpdateList_validations (req : Request) : list (string * Validation) :=
  let formData := formData_get (UpdateList_formData req) in
  [ ("_id", ListValidator.Id listValidator (formData "_id"));
    ("userId", ListValidator.UserId listValidator (formData "userId"));
    ("name", ListValidator.Name listValidator (formData "name"));
    ("color", ListValidator.Color listValidator (formData "color")) ].

Definition UpdateList (req : Request) : World → Outcome * World :=
  handler (
    let formData := formData_get (UpdateList_formData req) in
    let validations := UpdateList_validations req in
    if negb (all_valid validations) then
      throw (HttpError 400 (Some "Please correct list validations!") validations)
    else
      let* oid := or_throw "BSONError" (ObjectId_new (formData "_id")) in
      let* uid := or_throw "BSONError" (ObjectId_new (formData "userId")) in
      let upd : Doc :=
        set_field "name" (bson_of_js (formData "name"))
          (set_field "color" (bson_of_js (formData "color")) ∅) in
      let* updatedList := Model_findOneAndUpdate List (owned_filter oid uid) upd in
      match updatedList with
      | None => throw (HttpError 404 (Some (not_found "List" (formData "_id"))) [])
      | Some l => ret (Json 200 (BodyOne None "list" l))
      end).

Definition DeleteList (req : Request) : World → Outcome * World :=
  handler (
    let userId := _id (user req) in
    let id := requested_id_url req "listId" in
    let validation := ListValidator.Id listValidator id in
    if error validation then throw (HttpError 400 (text validation) [])
    else
      let* oid := or_throw "BSONError" (ObjectId_new id) in
      let* deletedList := Model_findOneAndDelete List (owned_filter oid userId) in
      match deletedList with
      | None => throw (HttpError 404 (Some (not_found "List" id)) [])
      | Some l => ret (Json 200 (BodyOne None "list" l))
      end).

End Controllers.

(** ** Creating documents: AddTodo and AddList *)

(** [Model.create(fields)]: what a model makes of the fields it is given, the
    new document with its generated [_id] and the defaults of its schema, or
    [None] when the schema refuses the fields.  The schemas are not part of
    the controllers; the controllers are modelled over any behaviour of them. *)
Class Schemas : Type := mkSchemas {
  new_document : Model → Doc → World → option Doc
}.

(** The new document is added to its collection.  ([create] carries no
    filter; [calls] keeps the calls that carry one.) *)
Definition Model_create `{S : Schemas} (m : Model) (fields : Doc) : M Doc :=
  λ w, match new_document m fields w with
       | Some d => (Ok d, set_collection m (collection m w ++ [d]) w)
       | None => (Throw (Exception "ValidationError"), w)
       end.

Section Creating.
Context `{E : Externals} `{S : Schemas}.
Local Open Scope ctrl_scope.

Definition AddTodo_formData (req : Request) : list (string * JSValue) :=
  [ ("userId", JStr (toHexString (_id (user req))));
    ("listId", js_or (prop (body req) "listId") JNull);
    ("name", prop (body req) "name");
    ("notes", js_or (prop (body req) "notes") JNull);
    ("url", js_or (prop (body req) "url") JNull);
    ("due", prop (body req) "due");
    ("priority", js_or (prop (body req) "priority") TodoPriority_NONE) ].

Definition AddTodo_validations (req : Request) : list (string * Validation) :=
  let formData := formData_get (AddTodo_formData req) in
  [ ("userId", TodoValidator.UserId todoValidator (formData "userId"));
    ("listId", TodoValidator.ListId todoValidator (formData "listId"));
    ("name", TodoValidator.Name todoValidator (formData "name"));
    ("notes", TodoValidator.Notes todoValidator (formData "notes"));
    ("url", TodoValidator.URL todoValidator (formData "url"));
    ("due", TodoValidator.Due todoValidator (formData "due"));
    ("priority", TodoValidator.Priority todoValidator (formData "priority")) ].

(** The object given to [Todo.create]. *)
Definition AddTodo_fields (req : Request) (uid : ObjectId) (due : Z) : Doc :=
  let formData := formData_get (AddTodo_formData req) in
  <["userId" := BOid uid]>
    (set_field "listId" (bson_of_js (formData "listId"))
       (set_field "name" (bson_of_js (formData "name"))
          (set_field "notes" (bson_of_js (formData "notes"))
             (set_field "url" (bson_of_js (formData "url"))
                (<["due" := BDate due]>
                   (set_field "priority" (bson_of_js (formData "priority")) ∅)))))).

Definition AddTodo (req : Request) : World → Outcome * World :=
  handler (
    let formData := formData_get (AddTodo_formData req) in
    let validations := AddTodo_validations req in
    if negb (all_valid validations) then
      throw (HttpError 400 (Some "Bad Request") validations)
    else
      let* uid := or_throw "BSONError" (ObjectId_new (formData "userId")) in
      let* due := or_throw "CastError" (moment_toDate (formData "due")) in
      let* createdTodo := Model_create Todo (AddTodo_fields req uid due) in
      ret (Json 201 (BodyOne (Some ("Added " +:+ quoted_name createdTodo))
                       "todo" createdTodo))).

Definition AddList_formData (req : Request) : list (string * JSValue) :=
  [ ("userId", JStr (toHexString (_id (user req))));
    ("name", prop (body req) "name");
    ("color", prop (body req) "color") ].

Definition AddList_validations (req : Request) : list (string * Validation) :=
  let formData := formData_get (AddList_formData req) in
  [ ("userId", ListValidator.UserId listValidator (formData "userId"));
    ("name", ListValidator.Name listValidator (formData "name"));
    ("color", ListValidator.Color listValidator (formData "color")) ].

(** The object given to [List.create]. *)
Definition AddList_fields (req : Request) (uid : ObjectId) : Doc :=
  let formData := formData_get (AddList_formData req) in
  <["userId" := BOid uid]>
    (set_field "name" (bson_of_js (formData "name"))
       (set_field "color" (bson_of_js (formData "color")) ∅)).

Definition AddList (req : Request) : World → Outcome * World :=
  handler (
    let formData := formData_get (AddList_formData req) in
    let validations := AddList_validations req in
    if negb (all_valid validations) then
      throw (HttpError 400 (Some "Plese correct list validations!") validations)
    else
      let* uid := or_throw "BSONError" (ObjectId_new (formData "userId")) in
      let* createdList := Model_create List (AddList_fields req uid) in
      ret (Json 201 (BodyOne None "list" createdList))).

End Creating.

(** ** Token issuance: [generateUserTokens] *)

Module Tokens.

Record IUser : Type := mkUser {
  firstName : string;
  lastName : string;
  username : string;
  email : string;
  refreshTokens : list string
}.

Record UserTokens : Type := mkTokens { accessToken : string; refreshToken : string }.

Inductive Promise (A : Type) : Type :=
  | Resolved (a : A)
  | Rejected (name : string).
Arguments Resolved {A} a.
Arguments Rejected {A} name.

(** [User.findOne({ username })] *)
Definition User_findOne (name : string) (users : list IUser) : option IUser :=
  List.find (λ u, String.eqb (username u) name) users.

(** [User.updateOne({ username }, { refreshTokens })] *)
Fixpoint User_updateOne (name : string) (tokens : list string) (users : list IUser)
  : list IUser :=
  match users with
  | [] => []
  | u :: r =>
      if String.eqb (username u) name
      then mkUser (firstName u) (lastName u) (username u) (email u) tokens :: r
      else u :: User_updateOne name tokens r
  end.

Section Generate.
(** [sign(payload, secret, { expiresIn })] of jsonwebtoken; [None] when it
    throws.  The secrets are read from the environment and may be undefined. *)
Variable signJWT : list (string * string) → option string → string → option string.
Variable JWT_ACCESS_SECRET JWT_REFRESH_SECRET : option string.

Definition generateUserTokens (userData : IUser) (users : list IUser)
  : Promise UserTokens * list IUser :=
  match signJWT [("firstName", firstName userData); ("lastName", lastName userData);
                 ("username", username userData); ("email", email userData)]
                JWT_ACCESS_SECRET "7d" with
  | None => (Rejected "JsonWebTokenError", users)
  | Some access =>
      match signJWT [("username", username userData)] JWT_REFRESH_SECRET "365d" with
      | None => (Rejected "JsonWebTokenError", users)
      | Some refresh =>
          match User_findOne (username userData) users with
          | None => (Rejected "TypeError", users)
          | Some foundUser =>
              let newRefreshTokens := (refreshTokens foundUser ++ [refresh])%list in
              (Resolved (mkTokens access refresh),
               User_updateOne (username userData) newRefreshTokens users)
          end
      end
  end.

End Generate.
End Tokens.

(** ** A reference instance of the imported functions

    One concrete behaviour of the imported functions, used to run the
    controllers on concrete requests: object ids are 24 hexadecimal digits,
    dates are read in UTC, and the priority enum is a numeric one. *)

Module Reference.

Definition is_hex_digit (a : Ascii.ascii) : bool :=
  let n := Ascii.nat_of_ascii a in
  ((48 <=? n) && (n <=? 57) || (65 <=? n) && (n <=? 70) || (97 <=? n) && (n <=? 102))%nat.

Definition lower_hex (a : Ascii.ascii) : Ascii.ascii :=
  let n := Ascii.nat_of_ascii a in
  if ((65 <=? n) && (n <=? 70))%nat then Ascii.ascii_of_nat (n + 32) else a.

Fixpoint map_string (f : Ascii.ascii → Ascii.ascii) (s : string) : string :=
  match s with
  | EmptyString => EmptyString
  | String a r => String (f a) (map_string f r)
  end.

Fixpoint all_chars (p : Ascii.ascii → bool) (s : string) : bool :=
  match s with
  | EmptyString => true
  | String a r => p a && all_chars p r
  end.

Definition is_hex24 (s : string) : bool :=
  (String.length s =? 24)%nat && all_chars is_hex_digit s.

(** The id that the constructor generates when it is given none. *)
Definition generated : ObjectId := mkObjectId "6543210fedcba09876543210".

Definition new_ObjectId (v : JSValue) : option ObjectId :=
  match v with
  | JStr s => if is_hex24 s then Some (mkObjectId (map_string lower_hex s)) else None
  | JUndefined | JNull | JNum _ => Some generated
  | JBool _ => None
  end.

Definition digit (a : Ascii.ascii) : option Z :=
  let n := Ascii.nat_of_ascii a in
  if ((48 <=? n) && (n <=? 57))%nat then Some (Z.of_nat n - 48) else None.

Definition is_leap (y : Z) : bool :=
  ((y mod 4 =? 0) && negb (y mod 100 =? 0)) || (y mod 400 =? 0).

Definition days_in_month (y m : Z) : Z :=
  if m =? 2 then (if is_leap y then 29 else 28)
  else if (m =? 4) || (m =? 6) || (m =? 9) || (m =? 11) then 30 else 31.

(** Days from 1970-01-01 to the civil date y-m-d. *)
Definition days_from_civil (y m d : Z) : Z :=
  let y' := if m <=? 2 then y - 1 else y in
  let era := y' / 400 in
  let yoe := y' - era * 400 in
  let mp := (m + 9) mod 12 in
  let doy := (153 * mp + 2) / 5 + d - 1 in
  let doe := yoe * 365 + yoe / 4 - yoe / 100 + doy in
  era * 146097 + doe - 719468.

Definition ms_per_day : Z := 86400000.

Definition dash : Ascii.ascii := Ascii.ascii_of_nat 45.

(** Ten characters, two digits, a dash, two digits, a dash and four digits,
    that name a day of the calendar. *)
Definition parse_MM_DD_YYYY (s : string) : option Z :=
  match s with
  | String m1 (String m2 (String sep1 (String d1 (String d2 (String sep2
      (String y1 (String y2 (String y3 (String y4 EmptyString))))))))) =>
      match digit m1, digit m2, digit d1, digit d2,
            digit y1, digit y2, digit y3, digit y4 with
      | Some a, Some b, Some c, Some d, Some e, Some f, Some g, Some h =>
          let mo := 10 * a + b in
          let da := 10 * c + d in
          let ye := 1000 * e + 100 * f + 10 * g + h in
          if Ascii.eqb sep1 dash && Ascii.eqb sep2 dash
             && (1 <=? mo) && (mo <=? 12) && (1 <=? da) && (da <=? days_in_month ye mo)
          then Some (days_from_civil ye mo da * ms_per_day)
          else None
      | _, _, _, _, _, _, _, _ => None
      end
  | _ => None
  end.

Definition ok : Validation := mkValidation false None.
Definition invalid (msg : string) : Validation := mkValidation true (Some msg).

Definition check_id (msg : string) (v : JSValue) : Validation :=
  match v with
  | JStr s => if is_hex24 s then ok else invalid msg
  | _ => invalid msg
  end.

Definition check_optional_id (msg : string) (v : JSValue) : Validation :=
  match v with
  | JUndefined | JNull => ok
  | _ => check_id msg v
  end.

Definition check_name (msg : string) (v : JSValue) : Validation :=
  match v with
  | JStr s => if String.eqb s "" then invalid msg else ok
  | _ => invalid msg
  end.

(** Modelled from the spec: the enum [TodoPriority] of [@/types/todo]
    ("priority (enum: NONE/LOW/MEDIUM/HIGH or similar)"), taken as a numeric
    enum, whose [Object.values] are its names and its numbers. *)
Definition priorities : list JSValue :=
  [JStr "NONE"; JStr "LOW"; JStr "MEDIUM"; JStr "HIGH"; JNum 0; JNum 1; JNum 2; JNum 3].

Definition to_date (now : Z) (v : JSValue) : option Z :=
  match v with
  | JUndefined => Some now
  | JNum n => Some n
  | _ => None
  end.

(** Modelled from the spec: the field validators of [@/utils/validator]
    ("pure functions checking field-level constraints (string length, enum
    membership, ObjectId format) and returning a result-with-error-flag per
    field").  The spec does not give their texts; the ones here stand in. *)
Definition todo_validator (now : Z) : TodoValidator.t :=
  TodoValidator.mk
    (check_id "Invalid todo ID!")
    (check_id "Invalid user ID!")
    (check_optional_id "Invalid list ID!")
    (check_name "Name cannot be empty!")
    (λ _, ok)
    (λ _, ok)
    (λ v, match to_date now v with Some _ => ok | None => invalid "Invalid due date!" end)
    (λ v, if bool_decide (v ∈ priorities) then ok else invalid "Invalid priority!").

(** Modelled from the spec: the validators of the fields of a list, likewise. *)
Definition list_validator : ListValidator.t :=
  ListValidator.mk
    (check_id "Invalid list ID!")
    (check_id "Invalid user ID!")
    (check_name "Name cannot be empty!")
    (λ _, ok).

(** The instance, for a request made at the instant [now]. *)
Definition externals (now : Z) : Externals :=
  {| todoValidator := todo_validator now;
     listValidator := list_validator;
     TodoPriority_values := priorities;
     TodoPriority_NONE := JNum 0;
     ObjectId_isValid := is_hex24;
     ObjectId_new := new_ObjectId;
     moment_now := now;
     moment_MM_DD_YYYY := parse_MM_DD_YYYY;
     moment_set_hms0 := λ t, t - t mod ms_per_day;
     moment_add_1d := λ t, t + ms_per_day;
     moment_toDate := to_date now |}.

(** Modelled from the spec: what [create] makes of the fields ("completed
    flag (default false)"): the fields with a generated [_id] and, for a
    todo, [completed: false]. *)
Definition schemas : Schemas :=
  {| new_document := λ m fields _,
       Some (<["_id" := BOid generated]>
               (match m with
                | Todo => <["completed" := BBool false]> fields
                | List => fields
                end)) |}.

End Reference.

(** ** Concrete requests and stores *)

Module Examples.

Definition alice : AuthUser := mkAuthUser (mkObjectId "aaaaaaaaaaaaaaaaaaaaaaaa").
Definition bob : AuthUser := mkAuthUser (mkObjectId "bbbbbbbbbbbbbbbbbbbbbbbb").

(** 2024-01-02T00:00:00.000Z, noon of that day, and the start of the next day. *)
Definition jan2 : Z := 1704153600000.
Definition jan2_noon : Z := 1704196800000.
Definition jan3 : Z := 1704240000000.

Definition todo (id owner name : string) (completed : bool) (due : Z) : Doc :=
  <["_id" := BOid (mkObjectId id)]>
    (<["userId" := BOid (mkObjectId owner)]>
       (<["name" := BStr name]>
          (<["completed" := BBool completed]> {[ "due" := BDate due ]}))).

Definition old_todo : Doc :=
  todo "507f1f77bcf86cd799439011" "aaaaaaaaaaaaaaaaaaaaaaaa" "Renew passport" false 0.

Definition midnight_todo : Doc :=
  todo "507f1f77bcf86cd799439012" "aaaaaaaaaaaaaaaaaaaaaaaa" "Submit report" false jan3.

Definition store (l : list Doc) : World := mkWorld l [] [].

Definition get (q : gmap string string) : Request := mkRequest ∅ q ∅ alice.

(** A request on the document [id] ([/todos/:todoId], [/lists/:listId]). *)
Definition on (k id : string) (b : gmap string JSValue) (u : AuthUser) : Request :=
  mkRequest {[ k := id ]} ∅ b u.

Definition bobs_list : Doc :=
  <["_id" := BOid (mkObjectId "cccccccccccccccccccccccc")]>
    (<["userId" := BOid (_id bob)]>
       (<["name" := BStr "Groceries"]> {[ "color" := BStr "green" ]})).

Definition bobs_todo : Doc :=
  todo "507f1f77bcf86cd799439013" "bbbbbbbbbbbbbbbbbbbbbbbb" "Water plants" true jan2.

Definition list_store (l : list Doc) : World := mkWorld [] l [].

(** The body with which alice updates the todo of bob, and the todo after it. *)
Definition takeover_body : gmap string JSValue :=
  <["name" := JStr "Mine now"]> (<["due" := JNum jan3]> {[ "priority" := JNum 1 ]}).

Definition taken_todo : Doc :=
  <["_id" := BOid (mkObjectId "507f1f77bcf86cd799439013")]>
    (<["userId" := BOid (_id alice)]>
       (<["name" := BStr "Mine now"]>
          (<["notes" := BNull]>
             (<["url" := BNull]>
                (<["due" := BDate jan3]>
                   (<["priority" := BNum 1]> {[ "completed" := BBool true ]})))))).

(** Two todos of one list, one completed, and a todo of no list. *)
Definition groceries : ObjectId := mkObjectId "cccccccccccccccccccccccc".

Definition in_list (l : ObjectId) (d : Doc) : Doc := <["listId" := BOid l]> d.

Definition milk : Doc :=
  in_list groceries
    (todo "507f1f77bcf86cd799439021" "aaaaaaaaaaaaaaaaaaaaaaaa" "Milk" false jan2).

Definition bread : Doc :=
  in_list groceries
    (todo "507f1f77bcf86cd799439022" "aaaaaaaaaaaaaaaaaaaaaaaa" "Bread" true jan2).

(** A signer that needs a secret, and two stored users. *)
Definition sign (payload : list (string * string)) (secret : option string)
    (expiresIn : string) : option string :=
  match secret with
  | Some k => Some ("jwt/" +:+ k +:+ "/" +:+ expiresIn)
  | None => None
  end.

Definition carol : Tokens.IUser :=
  Tokens.mkUser "Carol" "Diaz" "carol" "carol@example.org" ["r1"; "r2"].

Definition dave : Tokens.IUser :=
  Tokens.mkUser "Dave" "Egan" "dave" "dave@example.org" [].

End Examples.

(** * The vocabulary of the statements *)

(** The filter that keeps the todos that are not completed. *)
Definition not_completed : gmap string Cond := {[ "completed" := CEq (BBool false) ]}.

(** The conditions [c] bound [due] by the day that starts at [start] and whose
    next day starts at [next]: what satisfies the condition on [due] is a
    date from [start] to [next], and every date from [start] and before
    [next] satisfies it. *)
Definition due_within_day (c : gmap string Cond) (start next : Z) : Prop :=
  ∃ dc, c !! "due" = Some dc ∧
    (∀ v, cond_holds dc v = true → ∃ t, v = Some (BDate t) ∧ start ≤ t ≤ next) ∧
    (∀ t, start ≤ t < next → cond_holds dc (Some (BDate t)) = true).

(** The constructor accepts the [listId] of the request if [isValid] does. *)
Definition listId_constructible `{E : Externals} (req : Request) : Prop :=
  match query_or_null req "listId" with
  | Some l => ObjectId_isValid l = true → is_Some (ObjectId_new (JStr l))
  | None => True
  end.

Definition call_filter (c : Call) : Filter :=
  match c with
  | CallFind _ f _ | CallCountDocuments _ f
  | CallFindOneAndUpdate _ f _ | CallFindOneAndDelete _ f => f
  end.

(** The document belongs to the user [uid]. *)
Definition owned_by (uid : ObjectId) (d : Doc) : bool :=
  bool_decide (d !! "userId" = Some (BOid uid)).

(** The documents of a collection that belong to other users than [uid]. *)
Definition others (uid : ObjectId) (l : list Doc) : list Doc :=
  List.filter (λ d, negb (owned_by uid d)) l.

(** What an operation on lists may do for the user of the request: the
    filters of its store calls are satisfied by documents of that user only,
    the lists of the other users stay as they are, and no todo is touched. *)
Definition scoped_to_owner (req : Request) (w : World)
    (h : Request → World → Outcome * World) : Prop :=
  let uid := _id (user req) in
  let w' := snd (h req w) in
  (∃ new, calls w' = calls w ++ new ∧
          Forall (λ c, ∀ d, matches (call_filter c) d = true → owned_by uid d = true) new)
  ∧ others uid (lists w') = others uid (lists w)
  ∧ todos w' = todos w.

(** No list has both the requested [_id] and the requester as its owner. *)
Definition no_own_list (req : Request) (w : World) (oid : ObjectId) : Prop :=
  Forall (λ d, ¬ (d !! "_id" = Some (BOid oid) ∧ owned_by (_id (user req)) d = true))
    (lists w).

(** The todos [l'] are the todos [l] with the first todo of id [oid] replaced
    in place by [t], which is that todo with [completed] set to [flag] and
    its other fields as they were. *)
Definition flag_set (oid : ObjectId) (flag : bool) (l l' : list Doc) (t : Doc) : Prop :=
  ∃ pre d post,
    l = pre ++ d :: post
    ∧ Forall (λ x, x !! "_id" ≠ Some (BOid oid)) pre
    ∧ d !! "_id" = Some (BOid oid)
    ∧ t = <["completed" := BBool flag]> d
    ∧ l' = pre ++ t :: post.

(** The filter of [c] is [{ _id: new Types.ObjectId(id) }] and nothing else. *)
Definition filters_by_id `{E : Externals} (id : JSValue) (c : Call) : Prop :=
  ∃ oid, ObjectId_new id = Some oid
         ∧ call_filter c = FFields {[ "_id" := CEq (BOid oid) ]}.

(** The operation [h], which reads the id of its request with [id], behaves
    the same for every requesting user, and every store call it makes filters
    on the [_id] alone. *)
Definition by_id_only `{E : Externals}
    (h : Request → World → Outcome * World) (id : Request → JSValue) : Prop :=
  ∀ req w,
    (∀ u, h (with_user u req) w = h req w)
    ∧ ∃ new, calls (snd (h req w)) = calls w ++ new
             ∧ Forall (filters_by_id (id req)) new.

Definition with_body (k : string) (v : JSValue) (req : Request) : Request :=
  mkRequest (params req) (query req) (<[k := v]> (body req)) (user req).



(** The message as the spec and the tests word it:
    [Cannot <action>, no todo whose ID is <id> found!]. *)
Definition spec_not_found_message (action id : string) : string :=
  "Cannot " +:+ action +:+ ", no todo whose ID is " +:+ id +:+ " found!".

(** The [due] option of the request is 'all': absent, empty or spelled out. *)
Definition due_is_all (req : Request) : Prop :=
  default "all" (query_or_null req "due") = "all".

(** [l'] is [l], but for the fields [ks] of at most one document. *)
Definition changes_only (ks : list string) (l l' : list Doc) : Prop :=
  l' = l ∨
  ∃ pre d t post,
    l = pre ++ d :: post ∧ l' = pre ++ t :: post ∧ ∀ k, k ∉ ks → t !! k = d !! k.

(** The operation answers 200, or fails with 400 or 404 or with an exception
    of a library, and a failure leaves the todos and the lists as they were. *)
Definition fails_without_effect (h : Request → World → Outcome * World) : Prop :=
  ∀ req w,
    match fst (h req w) with
    | Json s _ => s = 200%nat
    | Next (HttpError s _ _) =>
        (s = 400%nat ∨ s = 404%nat) ∧ todos (snd (h req w)) = todos w
        ∧ lists (snd (h req w)) = lists w
    | Next (Exception _) =>
        todos (snd (h req w)) = todos w ∧ lists (snd (h req w)) = lists w
    end.

(** The todos after [h] differ from the todos before in the fields [ks] of
    at most one todo, and the lists are the same. *)
Definition edits_todo_fields (ks : list string)
    (h : Request → World → Outcome * World) : Prop :=
  ∀ req w,
    changes_only ks (todos w) (todos (snd (h req w)))
    ∧ lists (snd (h req w)) = lists w.

(** The collection after the first document that [p] accepts is updated. *)
Definition updated (p : Doc → bool) (u : Doc → Doc) (l : list Doc) : list Doc :=
  match update_first p u l with
  | Some (_, l') => l'
  | None => l
  end.

(** The listing that a request gets. *)
Definition listed `{E : Externals} (req : Request) (w : World) : list Doc :=
  match fst (GetAllTodos req w) with
  | Json _ (BodyMany _ _ found) => found
  | _ => []
  end.

(** * Tactics *)

(** Unfolds the monad and the model methods of a controller. *)
Ltac run :=
  cbv [handler bind ret throw or_throw
       Model_find Model_countDocuments Model_findOneAndUpdate Model_findOneAndDelete
       record_call set_collection collection];
  cbn [fst snd todos lists calls].

Ltac no_call :=
  run; exists []; rewrite app_nil_r; split; [reflexivity | constructor].

Ltac one_call oid H :=
  run; eexists; split; [reflexivity |];
  constructor; [exists oid; split; [exact H | reflexivity] | constructor].

(** * Properties *)

(** ** Filters and the first matching document *)

Lemma matches_fields_singleton (k : string) (c : Cond) (d : Doc) :
  matches (FFields {[ k := c ]}) d = cond_holds c (d !! k).
Proof.
  simpl. destruct (cond_holds c (d !! k)) eqn:Hc.
  - apply bool_decide_eq_true. apply map_Forall_singleton. exact Hc.
  - apply bool_decide_eq_false. intros H.
    apply map_Forall_singleton in H. congruence.
Qed.

Lemma matches_id_filter (oid : ObjectId) (d : Doc) :
  matches (id_filter oid) d = bool_decide (d !! "_id" = Some (BOid oid)).
Proof. unfold id_filter. rewrite matches_fields_singleton. reflexivity. Qed.

Lemma matches_owned_filter (oid uid : ObjectId) (d : Doc) :
  matches (owned_filter oid uid) d =
  bool_decide (d !! "_id" = Some (BOid oid)) && bool_decide (d !! "userId" = Some (BOid uid)).
Proof.
  unfold owned_filter. cbn [matches forallb].
  change (bool_decide (map_Forall (λ k c, cond_holds c (d !! k) = true) {[ "_id" := CEq (BOid oid) ]}))
    with (matches (FFields {[ "_id" := CEq (BOid oid) ]}) d).
  change (bool_decide (map_Forall (λ k c, cond_holds c (d !! k) = true) {[ "userId" := CEq (BOid uid) ]}))
    with (matches (FFields {[ "userId" := CEq (BOid uid) ]}) d).
  rewrite !matches_fields_singleton. cbn [cond_holds]. rewrite andb_true_r. reflexivity.
Qed.

Lemma update_first_None (p : Doc → bool) (u : Doc → Doc) (l : list Doc) :
  update_first p u l = None ↔ Forall (λ d, p d = false) l.
Proof.
  induction l as [|d r IH]; simpl.
  - split; [constructor | reflexivity].
  - destruct (p d) eqn:Hp.
    + split; [discriminate |]. intros H. inversion H; subst. congruence.
    + destruct (update_first p u r) as [[d' r']|].
      * split; [discriminate |]. intros H. inversion H; subst.
        apply IH in H3. discriminate.
      * split; [| reflexivity]. intros _. constructor; [exact Hp | apply IH; reflexivity].
Qed.

(** What [update_first] returns, when it returns: the collection splits
    around the first accepted document, which alone is replaced. *)
Lemma update_first_Some (p : Doc → bool) (u : Doc → Doc) (l l' : list Doc) (d' : Doc) :
  update_first p u l = Some (d', l') →
  ∃ pre d post,
    l = pre ++ d :: post ∧ Forall (λ x, p x = false) pre ∧ p d = true ∧
    d' = u d ∧ l' = pre ++ u d :: post.
Proof.
  revert l' d'. induction l as [|x r IH]; simpl; intros l' d' H; [discriminate |].
  destruct (p x) eqn:Hp.
  - inversion H; subst. eexists [], _, _. repeat split; [constructor | assumption].
  - destruct (update_first p u r) as [[d1 r1]|] eqn:Hr; [| discriminate].
    inversion H; subst. destruct (IH _ _ eq_refl) as (pre & d & post & -> & Hpre & Hd & -> & ->).
    exists (x :: pre), d, post. repeat split; [constructor; assumption | exact Hd].
Qed.

Lemma update_first_split (p : Doc → bool) (u : Doc → Doc) (pre post : list Doc) (d : Doc) :
  Forall (λ x, p x = false) pre → p d = true →
  update_first p u (pre ++ d :: post) = Some (u d, pre ++ u d :: post).
Proof.
  intros Hpre Hd. induction Hpre as [|x pre Hx _ IH]; simpl.
  - rewrite Hd. reflexivity.
  - rewrite Hx, IH. reflexivity.
Qed.

Lemma update_first_is_Some (p : Doc → bool) (u : Doc → Doc) (l : list Doc) (d : Doc) :
  d ∈ l → p d = true → is_Some (update_first p u l).
Proof.
  intros Hin Hd. destruct (update_first p u l) eqn:Hu; [eauto |].
  apply update_first_None in Hu. rewrite Forall_forall in Hu.
  specialize (Hu d Hin). congruence.
Qed.

Lemma delete_first_None (p : Doc → bool) (l : list Doc) :
  delete_first p l = None ↔ Forall (λ d, p d = false) l.
Proof.
  induction l as [|d r IH]; simpl.
  - split; [constructor | reflexivity].
  - destruct (p d) eqn:Hp.
    + split; [discriminate |]. intros H. inversion H; subst. congruence.
    + destruct (delete_first p r) as [[d' r']|].
      * split; [discriminate |]. intros H. inversion H; subst.
        apply IH in H3. discriminate.
      * split; [| reflexivity]. intros _. constructor; [exact Hp | apply IH; reflexivity].
Qed.

Lemma delete_first_Some (p : Doc → bool) (l l' : list Doc) (d : Doc) :
  delete_first p l = Some (d, l') →
  ∃ pre post,
    l = pre ++ d :: post ∧ Forall (λ x, p x = false) pre ∧ p d = true ∧ l' = pre ++ post.
Proof.
  revert l' d. induction l as [|x r IH]; simpl; intros l' d H; [discriminate |].
  destruct (p x) eqn:Hp.
  - inversion H; subst. eexists [], _. repeat split; [constructor | assumption].
  - destruct (delete_first p r) as [[d1 r1]|] eqn:Hr; [| discriminate].
    inversion H; subst. destruct (IH _ _ eq_refl) as (pre & post & -> & Hpre & Hd & ->).
    exists (x :: pre), post. repeat split; [constructor; assumption | exact Hd].
Qed.

(** ** GetAllTodos without query parameters *)

Lemma matches_not_completed (d : Doc) :
  matches (FFields not_completed) d = bool_decide (d !! "completed" = Some (BBool false)).
Proof. unfold not_completed. rewrite matches_fields_singleton. reflexivity. Qed.

Lemma filter_matches_ext (f : Filter) (p : Doc → bool) (l : list Doc) :
  (∀ d, matches f d = p d) → List.filter (matches f) l = List.filter p l.
Proof.
  intros H. induction l as [|d r IH]; simpl; [reflexivity |].
  rewrite H, IH. reflexivity.
Qed.

Section GetAllTodos_facts.
Context `{E : Externals}.

(** With [due] absent or empty the option is 'all' and the [due] key is removed. *)
Lemma GetAllTodos_conditions_all (req : Request) (w : World) :
  query_or_null req "listId" = None →
  query_or_null req "due" = None →
  GetAllTodos_conditions req w = (Ok not_completed, w).
Proof.
  intros Hl Hd. unfold GetAllTodos_conditions. rewrite Hl, Hd. run. simpl.
  rewrite delete_insert_eq. unfold not_completed.
  rewrite delete_singleton_ne by discriminate. reflexivity.
Qed.

End GetAllTodos_facts.

(** C1 (as amended): a GetAllTodos request without query parameters sends the
    store the filter [{ completed: false }], which has no condition on [due],
    and answers 200 with all the todos that are not completed. *)
Theorem GetAllTodos_no_query_parameters `{E : Externals}
    (ps : gmap string string) (b : gmap string JSValue) (u : AuthUser) (w : World) :
  let found :=
    List.filter (λ d, bool_decide (d !! "completed" = Some (BBool false))) (todos w) in
  GetAllTodos (mkRequest ps ∅ b u) w =
    (Json 200 (BodyMany (length found) "todos" found),
     mkWorld (todos w) (lists w)
       (calls w ++ [CallFind Todo (FFields not_completed) None;
                    CallCountDocuments Todo (FFields not_completed)]))
  ∧ not_completed !! "due" = None.
Proof.
  intros found. split; [| reflexivity].
  unfold GetAllTodos. unfold handler at 1. unfold bind at 1.
  rewrite GetAllTodos_conditions_all by reflexivity.
  run. unfold find_docs, count_docs.
  rewrite (filter_matches_ext _ _ _ matches_not_completed).
  rewrite <- app_assoc. reflexivity.
Qed.

(** C1 (counterexample): a request made on 2024-01-02 without query
    parameters sends a filter without a [due] condition and is answered with a
    todo that was due on 1970-01-01. *)
Lemma GetAllTodos_default_is_not_today :
  let E := Reference.externals Examples.jan2_noon in
  let r := GetAllTodos (Examples.get ∅) (Examples.store [Examples.old_todo]) in
  calls (snd r) = [CallFind Todo (FFields not_completed) None;
                   CallCountDocuments Todo (FFields not_completed)]
  ∧ not_completed !! "due" = None
  ∧ fst r = Json 200 (BodyMany 1 "todos" [Examples.old_todo])
  ∧ Examples.old_todo !! "due" = Some (BDate 0).
Proof. vm_compute. repeat split. Qed.

(** ** The [due] option of GetAllTodos *)

Lemma matches_fields_lookup (c : gmap string Cond) (d : Doc) (k : string) (dc : Cond) :
  matches (FFields c) d = true → c !! k = Some dc → cond_holds dc (d !! k) = true.
Proof.
  simpl. intros H Hk. apply bool_decide_eq_true in H. exact (H k dc Hk).
Qed.

Lemma day_range_sound (start next : Z) (v : option Bson) :
  cond_holds (COps [(OpGte, BDate start); (OpLte, BDate next)]) v = true →
  ∃ t, v = Some (BDate t) ∧ start ≤ t ≤ next.
Proof.
  destruct v as [[| | | |t|]|]; simpl; try discriminate.
  rewrite andb_true_r. intros H. apply andb_true_iff in H as [H1 H2].
  exists t. split; [reflexivity | lia].
Qed.

Lemma day_range_complete (start next t : Z) :
  start ≤ t < next →
  cond_holds (COps [(OpGte, BDate start); (OpLte, BDate next)]) (Some (BDate t)) = true.
Proof.
  intros H. simpl. rewrite andb_true_r. apply andb_true_iff. split; apply Z.leb_le; lia.
Qed.

(** Conditions that keep [completed: false] and get the day range on [due]. *)
Lemma day_conditions (c0 : gmap string Cond) (start next : Z) (l : list Doc) :
  c0 !! "completed" = Some (CEq (BBool false)) →
  let c := <["due" := COps [(OpGte, BDate start); (OpLte, BDate next)]]> c0 in
  c !! "completed" = Some (CEq (BBool false))
  ∧ due_within_day c start next
  ∧ Forall (λ d, d !! "completed" = Some (BBool false)
                 ∧ ∃ t, d !! "due" = Some (BDate t) ∧ start ≤ t ≤ next)
      (List.filter (matches (FFields c)) l).
Proof.
  intros Hc c.
  assert (Hc' : c !! "completed" = Some (CEq (BBool false))).
  { unfold c. rewrite lookup_insert_ne by discriminate. exact Hc. }
  assert (Hd : c !! "due" = Some (COps [(OpGte, BDate start); (OpLte, BDate next)])).
  { unfold c. apply lookup_insert_eq. }
  split; [exact Hc' |]. split.
  - eexists. split; [exact Hd |].
    split; [apply day_range_sound | apply day_range_complete].
  - apply Forall_forall. intros d Hin.
    apply list_elem_of_In, filter_In in Hin as [_ Hm]. split.
    + apply (matches_fields_lookup _ _ _ _ Hm) in Hc'.
      apply bool_decide_eq_true in Hc'. exact Hc'.
    + apply (matches_fields_lookup _ _ _ _ Hm) in Hd.
      apply day_range_sound. exact Hd.
Qed.

Lemma query_or_null_Some (req : Request) (k s : string) :
  query req !! k = Some s → s ≠ "" → query_or_null req k = Some s.
Proof.
  intros H Hs. unfold query_or_null. rewrite H.
  destruct (String.eqb s "") eqn:He; [| reflexivity].
  apply String.eqb_eq in He. contradiction.
Qed.

(** C3 (as amended): a GetAllTodos request whose [due] parameter is a
    non-empty string other than 'all' fails with status 400 when the value
    does not parse as MM-DD-YYYY; when it parses, either the request fails
    with 400 'Invalid list ID!' (a [listId] was given that is not valid), or
    the filter sent keeps [completed: false] and bounds [due] by the parsed
    day, from its start (inclusive) to the start of the next day, and every
    todo of the response is not completed and due within these bounds. *)
Theorem GetAllTodos_due_option `{E : Externals} (req : Request) (w : World) (s : string) :
  query req !! "due" = Some s → s ≠ "" → s ≠ "all" →
  listId_constructible req →
  match moment_MM_DD_YYYY s with
  | None => ∃ msg, GetAllTodos req w = (Next (HttpError 400 (Some msg) []), w)
  | Some parsed =>
      let start := moment_set_hms0 parsed in
      let next := moment_add_1d start in
      (∃ l, query_or_null req "listId" = Some l ∧ ObjectId_isValid l = false ∧
            GetAllTodos req w = (Next (HttpError 400 (Some "Invalid list ID!") []), w))
      ∨
      (∃ c, let found := List.filter (matches (FFields c)) (todos w) in
            GetAllTodos req w =
              (Json 200 (BodyMany (length found) "todos" found),
               mkWorld (todos w) (lists w)
                 (calls w ++ [CallFind Todo (FFields c) None;
                              CallCountDocuments Todo (FFields c)]))
            ∧ c !! "completed" = Some (CEq (BBool false))
            ∧ due_within_day c start next
            ∧ Forall (λ d, d !! "completed" = Some (BBool false)
                           ∧ ∃ t, d !! "due" = Some (BDate t) ∧ start ≤ t ≤ next) found)
  end.
Proof.
  intros Hq Hne Hall Hctor.
  pose proof (query_or_null_Some _ _ _ Hq Hne) as Hdue.
  assert (Heqb : String.eqb s "all" = false) by (apply String.eqb_neq; exact Hall).
  unfold listId_constructible in Hctor.
  unfold GetAllTodos, GetAllTodos_conditions. rewrite Hdue. cbn [default from_option id].
  rewrite Heqb.
  destruct (query_or_null req "listId") as [l|] eqn:Hl.
  - destruct (ObjectId_isValid l) eqn:Hv.
    + destruct (Hctor eq_refl) as [oid Hoid]. rewrite Hoid.
      destruct (moment_MM_DD_YYYY s) as [parsed|]; run.
      * right. eexists. cbv zeta. split.
        { unfold find_docs, count_docs. rewrite <- app_assoc. reflexivity. }
        apply day_conditions.
        rewrite lookup_insert_ne by discriminate.
        rewrite lookup_insert_ne by discriminate.
        apply lookup_singleton_eq.
      * eexists. reflexivity.
    + destruct (moment_MM_DD_YYYY s) as [parsed|]; run.
      * left. exists l. repeat split. exact Hv.
      * eexists. reflexivity.
  - destruct (moment_MM_DD_YYYY s) as [parsed|]; run.
    + right. eexists. cbv zeta. split.
      { unfold find_docs, count_docs. rewrite <- app_assoc. reflexivity. }
      apply day_conditions.
      rewrite lookup_insert_ne by discriminate.
      apply lookup_singleton_eq.
    + eexists. reflexivity.
Qed.

(** C3 (witness): the request [?due=01-02-2024] made on 2024-01-02. *)
Lemma GetAllTodos_due_option_witness :
  let E := Reference.externals Examples.jan2_noon in
  let req := Examples.get {[ "due" := "01-02-2024" ]} in
  let w := Examples.store [Examples.old_todo] in
  ∃ c, calls (snd (GetAllTodos req w)) =
         [CallFind Todo (FFields c) None; CallCountDocuments Todo (FFields c)]
       ∧ due_within_day c Examples.jan2 Examples.jan3.
Proof.
  intros E req w.
  pose proof (GetAllTodos_due_option (E := E) req w "01-02-2024"
                eq_refl ltac:(discriminate) ltac:(discriminate) I) as H.
  change (moment_MM_DD_YYYY "01-02-2024") with (Some Examples.jan2) in H.
  cbv zeta in H.
  destruct H as [(l & Hl & _) | (c & Heq & _ & Hday & _)]; [discriminate Hl |].
  exists c. rewrite Heq. split; [reflexivity | exact Hday].
Defined.

(** C3 (counterexample): an empty [due] parameter is neither turned into a
    day range nor refused, it removes the date filter; and for
    [?due=01-02-2024] a todo due at the very start of 2024-01-03, the
    excluded end of the half-open range, is returned. *)
Lemma GetAllTodos_due_not_half_open :
  let E := Reference.externals Examples.jan2_noon in
  let ra := GetAllTodos (Examples.get {[ "due" := "" ]}) (Examples.store [Examples.old_todo]) in
  let rb := GetAllTodos (Examples.get {[ "due" := "01-02-2024" ]})
              (Examples.store [Examples.midnight_todo]) in
  (fst ra = Json 200 (BodyMany 1 "todos" [Examples.old_todo])
   ∧ calls (snd ra) = [CallFind Todo (FFields not_completed) None;
                       CallCountDocuments Todo (FFields not_completed)])
  ∧ (moment_MM_DD_YYYY "01-02-2024" = Some Examples.jan2
     ∧ moment_add_1d (moment_set_hms0 Examples.jan2) = Examples.jan3
     ∧ Examples.midnight_todo !! "due" = Some (BDate Examples.jan3)
     ∧ fst rb = Json 200 (BodyMany 1 "todos" [Examples.midnight_todo])).
Proof. vm_compute. repeat split. Qed.

(** ** The list controller *)

Lemma sort_insert_perm (spec : list (string * Z)) (d : Doc) (l : list Doc) :
  sort_insert spec d l ≡ₚ d :: l.
Proof.
  induction l as [|e r IH]; simpl; [reflexivity |].
  destruct (doc_compare spec d e); try reflexivity.
  rewrite IH. apply Permutation_swap.
Qed.

Lemma sort_docs_perm (spec : list (string * Z)) (l : list Doc) : sort_docs spec l ≡ₚ l.
Proof.
  unfold sort_docs. induction l as [|d r IH]; simpl; [reflexivity |].
  rewrite sort_insert_perm, IH. reflexivity.
Qed.

Lemma find_docs_length (f : Filter) (q : QueryOptions) (l : list Doc) :
  (length (find_docs f (Some q) l) ≤ limit q)%nat.
Proof. unfold find_docs. rewrite length_take. lia. Qed.

Lemma find_docs_matches (f : Filter) (o : option QueryOptions) (l : list Doc) :
  Forall (λ d, matches f d = true) (find_docs f o l).
Proof.
  assert (Hhits : Forall (λ d, matches f d = true) (List.filter (matches f) l)).
  { apply Forall_forall. intros d Hd. apply list_elem_of_In, filter_In in Hd. tauto. }
  unfold find_docs. destruct o as [q|]; [| exact Hhits].
  apply Forall_take, Forall_drop.
  rewrite sort_docs_perm. exact Hhits.
Qed.

(** C7: GetAllLists counts and then finds the requester's lists with the
    options [{ limit: 100, skip: 0, sort: { due: -1 } }], whatever the
    request holds, and its response carries at most 100 lists. *)
Theorem GetAllLists_fixed_paging `{E : Externals} (req : Request) (w : World) :
  let conditions := FFields {[ "userId" := CEq (BOid (_id (user req))) ]} in
  let options := {| limit := 100; skip := 0; sort := [("due", -1)] |} in
  ∃ total found,
    GetAllLists req w =
      (Json 200 (BodyMany total "lists" found),
       mkWorld (todos w) (lists w)
         (calls w ++ [CallCountDocuments List conditions;
                      CallFind List conditions (Some options)]))
    ∧ (length found ≤ 100)%nat.
Proof.
  intros conditions options.
  exists (count_docs conditions (lists w)), (find_docs conditions (Some options) (lists w)).
  split.
  - unfold GetAllLists. run. rewrite <- app_assoc. reflexivity.
  - apply (find_docs_length conditions options).
Qed.

Lemma owned_by_apply_update (uid : ObjectId) (upd d : Doc) :
  upd !! "userId" = None → owned_by uid (apply_update upd d) = owned_by uid d.
Proof.
  intros H. unfold owned_by, apply_update. rewrite lookup_union_r by exact H. reflexivity.
Qed.

Lemma set_field_lookup_ne (k k' : string) (v : option Bson) (d : Doc) :
  k ≠ k' → set_field k v d !! k' = d !! k'.
Proof.
  intros H. destruct v; simpl; [apply lookup_insert_ne; exact H | reflexivity].
Qed.

Lemma others_app (uid : ObjectId) (l1 l2 : list Doc) :
  others uid (l1 ++ l2) = others uid l1 ++ others uid l2.
Proof. apply List.filter_app. Qed.

Lemma others_cons_owned (uid : ObjectId) (d : Doc) (l : list Doc) :
  owned_by uid d = true → others uid (d :: l) = others uid l.
Proof. intros H. unfold others. simpl. rewrite H. reflexivity. Qed.

Lemma others_update_first (uid : ObjectId) (p : Doc → bool) (u : Doc → Doc)
    (l l' : list Doc) (d' : Doc) :
  (∀ d, p d = true → owned_by uid d = true) →
  (∀ d, owned_by uid (u d) = owned_by uid d) →
  update_first p u l = Some (d', l') →
  others uid l' = others uid l ∧ owned_by uid d' = true.
Proof.
  intros Hp Hu H.
  apply update_first_Some in H as (pre & d & post & -> & _ & Hd & -> & ->).
  apply Hp in Hd. split; [| rewrite Hu; exact Hd].
  rewrite !others_app, !others_cons_owned; [reflexivity | exact Hd | rewrite Hu; exact Hd].
Qed.

Lemma others_delete_first (uid : ObjectId) (p : Doc → bool) (l l' : list Doc) (d : Doc) :
  (∀ d, p d = true → owned_by uid d = true) →
  delete_first p l = Some (d, l') →
  others uid l' = others uid l ∧ owned_by uid d = true.
Proof.
  intros Hp H.
  apply delete_first_Some in H as (pre & post & -> & _ & Hd & ->).
  apply Hp in Hd. split; [| exact Hd].
  rewrite !others_app, others_cons_owned by exact Hd. reflexivity.
Qed.

Lemma owned_filter_owned (oid uid : ObjectId) (d : Doc) :
  matches (owned_filter oid uid) d = true → owned_by uid d = true.
Proof.
  rewrite matches_owned_filter. intros H. apply andb_true_iff in H as [_ H]. exact H.
Qed.

Lemma userId_filter_owned (uid : ObjectId) (d : Doc) :
  matches (FFields {[ "userId" := CEq (BOid uid) ]}) d = owned_by uid d.
Proof. rewrite matches_fields_singleton. reflexivity. Qed.

Lemma owned_filter_no_match (oid uid : ObjectId) (l : list Doc) :
  Forall (λ d, ¬ (d !! "_id" = Some (BOid oid) ∧ owned_by uid d = true)) l →
  Forall (λ d, matches (owned_filter oid uid) d = false) l.
Proof.
  intros Hl. eapply Forall_impl; [exact Hl |]. cbv beta.
  intros d H. rewrite matches_owned_filter.
  apply not_true_is_false. intros Hm. apply andb_true_iff in Hm as [H1 H2].
  apply bool_decide_eq_true in H1. apply H. split; assumption.
Qed.

Section List_ownership.
Context `{E : Externals}.
Variable req : Request.
Variable w : World.

Let uid : ObjectId := _id (user req).

Lemma GetAllLists_scoped : scoped_to_owner req w GetAllLists.
Proof.
  unfold scoped_to_owner, GetAllLists. run. repeat split.
  eexists. rewrite <- app_assoc. split; [reflexivity |].
  repeat constructor; cbn [call_filter]; intros d; rewrite userId_filter_owned; auto.
Qed.

Lemma GetAllLists_own_lists :
  ∃ total found,
    fst (GetAllLists req w) = Json 200 (BodyMany total "lists" found)
    ∧ Forall (λ d, owned_by uid d = true) found.
Proof.
  unfold GetAllLists. run. do 2 eexists. split; [reflexivity |].
  eapply Forall_impl; [apply find_docs_matches |]. cbv beta.
  intros d. rewrite userId_filter_owned. auto.
Qed.

Hypothesis hex_round_trip : ObjectId_new (JStr (toHexString uid)) = Some uid.

Lemma UpdateList_upd_keeps_owner (a b : option Bson) (d : Doc) :
  owned_by uid (apply_update (set_field "name" a (set_field "color" b ∅)) d) = owned_by uid d.
Proof.
  apply owned_by_apply_update.
  rewrite !set_field_lookup_ne by discriminate. apply lookup_empty.
Qed.

Lemma UpdateList_scoped : scoped_to_owner req w UpdateList.
Proof.
  unfold scoped_to_owner, UpdateList.
  destruct (all_valid (UpdateList_validations req)); cbn [negb].
  2:{ run. repeat split. exists []. rewrite app_nil_r. split; [reflexivity | constructor]. }
  change (formData_get (UpdateList_formData req) "userId") with (JStr (toHexString uid)).
  rewrite hex_round_trip.
  destruct (ObjectId_new (formData_get (UpdateList_formData req) "_id")) as [oid|].
  2:{ run. repeat split. exists []. rewrite app_nil_r. split; [reflexivity | constructor]. }
  run.
  destruct (update_first _ _ (lists w)) as [[d' l']|] eqn:Hu; cbn [fst snd lists todos calls].
  - eapply others_update_first in Hu as [Ho _];
      [| apply owned_filter_owned | apply UpdateList_upd_keeps_owner].
    repeat split; [| exact Ho].
    eexists. split; [reflexivity |]. repeat constructor. apply owned_filter_owned.
  - repeat split. eexists. split; [reflexivity |].
    repeat constructor. apply owned_filter_owned.
Qed.

Lemma DeleteList_scoped : scoped_to_owner req w DeleteList.
Proof.
  unfold scoped_to_owner, DeleteList.
  destruct (error (ListValidator.Id listValidator (requested_id_url req "listId"))).
  { run. repeat split. exists []. rewrite app_nil_r. split; [reflexivity | constructor]. }
  destruct (ObjectId_new (requested_id_url req "listId")) as [oid|].
  2:{ run. repeat split. exists []. rewrite app_nil_r. split; [reflexivity | constructor]. }
  run.
  destruct (delete_first _ (lists w)) as [[d' l']|] eqn:Hu; cbn [fst snd lists todos calls].
  - eapply others_delete_first in Hu as [Ho _]; [| apply owned_filter_owned].
    repeat split; [| exact Ho].
    eexists. split; [reflexivity |]. repeat constructor. apply owned_filter_owned.
  - repeat split. eexists. split; [reflexivity |].
    repeat constructor. apply owned_filter_owned.
Qed.

Lemma UpdateList_mismatch (oid : ObjectId) :
  no_own_list req w oid →
  all_valid (UpdateList_validations req) = true →
  ObjectId_new (requested_id req "listId") = Some oid →
  fst (UpdateList req w) =
    Next (HttpError 404 (Some (not_found "List" (requested_id req "listId"))) [])
  ∧ lists (snd (UpdateList req w)) = lists w.
Proof.
  intros Hno Hv Hid. unfold UpdateList. rewrite Hv. cbn [negb].
  change (formData_get (UpdateList_formData req) "userId") with (JStr (toHexString uid)).
  change (formData_get (UpdateList_formData req) "_id") with (requested_id req "listId").
  rewrite hex_round_trip, Hid. run.
  apply owned_filter_no_match in Hno.
  match goal with
  | |- context [update_first ?p ?u ?l] => rewrite (proj2 (update_first_None p u l) Hno)
  end.
  split; reflexivity.
Qed.

Lemma DeleteList_mismatch (oid : ObjectId) :
  no_own_list req w oid →
  error (ListValidator.Id listValidator (requested_id_url req "listId")) = false →
  ObjectId_new (requested_id_url req "listId") = Some oid →
  fst (DeleteList req w) =
    Next (HttpError 404 (Some (not_found "List" (requested_id_url req "listId"))) [])
  ∧ lists (snd (DeleteList req w)) = lists w.
Proof.
  intros Hno Hv Hid. unfold DeleteList. rewrite Hv, Hid. run.
  apply owned_filter_no_match in Hno.
  apply delete_first_None in Hno. rewrite Hno.
  split; reflexivity.
Qed.

End List_ownership.

(** C6: GetAllLists, UpdateList and DeleteList send the store filters that
    only documents of the requesting user satisfy and leave the lists of all
    other users as they are; GetAllLists answers with lists of the requester
    only; and when no list has both the requested id and the requester as
    owner, an UpdateList or DeleteList that reaches the store answers 404 and
    changes no list. *)
Theorem lists_scoped_by_owner `{E : Externals} (req : Request) (w : World) :
  ObjectId_new (JStr (toHexString (_id (user req)))) = Some (_id (user req)) →
  Forall (scoped_to_owner req w) [GetAllLists; UpdateList; DeleteList]
  ∧ (∃ total found,
       fst (GetAllLists req w) = Json 200 (BodyMany total "lists" found)
       ∧ Forall (λ d, owned_by (_id (user req)) d = true) found)
  ∧ (∀ oid, no_own_list req w oid →
       (all_valid (UpdateList_validations req) = true →
        ObjectId_new (requested_id req "listId") = Some oid →
        fst (UpdateList req w) =
          Next (HttpError 404 (Some (not_found "List" (requested_id req "listId"))) [])
        ∧ lists (snd (UpdateList req w)) = lists w)
       ∧
       (error (ListValidator.Id listValidator (requested_id_url req "listId")) = false →
        ObjectId_new (requested_id_url req "listId") = Some oid →
        fst (DeleteList req w) =
          Next (HttpError 404 (Some (not_found "List" (requested_id_url req "listId"))) [])
        ∧ lists (snd (DeleteList req w)) = lists w)).
Proof.
  intros Hhex. split; [| split].
  - constructor; [apply GetAllLists_scoped |].
    constructor; [apply UpdateList_scoped; exact Hhex |].
    constructor; [apply DeleteList_scoped | constructor].
  - apply GetAllLists_own_lists.
  - intros oid Hno. split.
    + apply UpdateList_mismatch; assumption.
    + apply DeleteList_mismatch; assumption.
Qed.

(** C6 (witness): alice asks to delete a list of bob. *)
Lemma lists_scoped_by_owner_witness :
  let E := Reference.externals 0 in
  let req := Examples.on "listId" "cccccccccccccccccccccccc" ∅ Examples.alice in
  let w := Examples.list_store [Examples.bobs_list] in
  fst (DeleteList req w) =
    Next (HttpError 404 (Some "List with ID cccccccccccccccccccccccc is not found!") [])
  ∧ lists (snd (DeleteList req w)) = [Examples.bobs_list].
Proof.
  intros E req w.
  destruct (lists_scoped_by_owner (E := E) req w eq_refl) as (_ & _ & H).
  assert (Hno : no_own_list req w (mkObjectId "cccccccccccccccccccccccc")).
  { repeat constructor. intros [_ H2]. vm_compute in H2. discriminate H2. }
  destruct (H _ Hno) as [_ Hd].
  exact (Hd eq_refl eq_refl).
Defined.

(** ** Mutations of a todo by its id *)

Section By_id.
Context `{E : Externals}.

Lemma CompleteTodo_by_id : by_id_only CompleteTodo (λ req, requested_id req "todoId").
Proof.
  intros req w. split; [reflexivity |]. unfold CompleteTodo.
  destruct (error _); [no_call |].
  destruct (ObjectId_new _) as [oid|] eqn:Hoid; [| no_call].
  run. destruct (update_first _ _ _) as [[d l]|]; one_call oid Hoid.
Qed.

Lemma UncompleteTodo_by_id : by_id_only UncompleteTodo (λ req, requested_id req "todoId").
Proof.
  intros req w. split; [reflexivity |]. unfold UncompleteTodo.
  destruct (error _); [no_call |].
  destruct (ObjectId_new _) as [oid|] eqn:Hoid; [| no_call].
  run. destruct (update_first _ _ _) as [[d l]|]; one_call oid Hoid.
Qed.

Lemma UpdateTodoPriority_by_id :
  by_id_only UpdateTodoPriority (λ req, requested_id req "todoId").
Proof.
  intros req w. split; [reflexivity |]. unfold UpdateTodoPriority.
  destruct (error _); [no_call |].
  destruct (negb (truthy _)); [no_call |].
  destruct (negb (bool_decide _)); [no_call |].
  destruct (ObjectId_new _) as [oid|] eqn:Hoid; [| no_call].
  run. destruct (update_first _ _ _) as [[d l]|]; one_call oid Hoid.
Qed.

Lemma UpdateTodoList_by_id : by_id_only UpdateTodoList (λ req, requested_id req "todoId").
Proof.
  intros req w. split; [reflexivity |]. unfold UpdateTodoList.
  destruct (error (TodoValidator.Id _ _)); [no_call |].
  destruct (error (TodoValidator.ListId _ _)); [no_call |].
  destruct (ObjectId_new (requested_id req "todoId")) as [oid|] eqn:Hoid; [| no_call].
  destruct (prop (body req) "listId") eqn:Hl.
  all: try (match goal with
            | |- context [ObjectId_new ?v] => destruct (ObjectId_new v) as [l'|]
            end; [| no_call]).
  all: run; destruct (update_first _ _ _) as [[d l]|]; one_call oid Hoid.
Qed.

Lemma DeleteTodo_by_id : by_id_only DeleteTodo (λ req, requested_id_url req "todoId").
Proof.
  intros req w. split; [reflexivity |]. unfold DeleteTodo.
  destruct (error _); [no_call |].
  destruct (ObjectId_new _) as [oid|] eqn:Hoid; [| no_call].
  run. destruct (delete_first _ _) as [[d l]|]; one_call oid Hoid.
Qed.

End By_id.

(** C4: CompleteTodo, UncompleteTodo, UpdateTodoPriority, UpdateTodoList and
    DeleteTodo give the same outcome and the same store whoever the
    requesting user is, and every filter they send holds the [_id] condition
    only: it has no [userId] key, and a document satisfies it exactly when its
    [_id] is the requested one. *)
Theorem todo_mutations_ignore_the_user `{E : Externals} :
  (by_id_only CompleteTodo (λ req, requested_id req "todoId")
   ∧ by_id_only UncompleteTodo (λ req, requested_id req "todoId")
   ∧ by_id_only UpdateTodoPriority (λ req, requested_id req "todoId")
   ∧ by_id_only UpdateTodoList (λ req, requested_id req "todoId")
   ∧ by_id_only DeleteTodo (λ req, requested_id_url req "todoId"))
  ∧ (∀ oid : ObjectId,
       ({[ "_id" := CEq (BOid oid) ]} : gmap string Cond) !! "userId" = None
       ∧ ∀ d, matches (FFields {[ "_id" := CEq (BOid oid) ]}) d
              = bool_decide (d !! "_id" = Some (BOid oid))).
Proof.
  split.
  - repeat split.
    + apply CompleteTodo_by_id.
    + apply UncompleteTodo_by_id.
    + apply UpdateTodoPriority_by_id.
    + apply UpdateTodoList_by_id.
    + apply DeleteTodo_by_id.
  - intros oid. split; [reflexivity |]. intros d. apply matches_id_filter.
Qed.

(** ** Completing and uncompleting *)

Lemma update_first_again (p : Doc → bool) (u : Doc → Doc) (l l' : list Doc) (d' : Doc) :
  (∀ d, p (u d) = p d) → (∀ d, u (u d) = u d) →
  update_first p u l = Some (d', l') →
  update_first p u l' = Some (d', l') ∧ d' ∈ l'.
Proof.
  intros Hp Hu H.
  apply update_first_Some in H as (pre & d & post & -> & Hpre & Hd & -> & ->).
  split.
  - rewrite (update_first_split p u pre post (u d) Hpre) by (rewrite Hp; exact Hd).
    rewrite Hu. reflexivity.
  - apply elem_of_app. right. apply elem_of_cons. left. reflexivity.
Qed.

Lemma apply_update_idem (upd d : Doc) :
  apply_update upd (apply_update upd d) = apply_update upd d.
Proof.
  unfold apply_update. apply map_eq. intros i. rewrite !lookup_union.
  destruct (upd !! i), (d !! i); reflexivity.
Qed.

Lemma id_filter_apply_update (oid : ObjectId) (upd d : Doc) :
  upd !! "_id" = None →
  matches (id_filter oid) (apply_update upd d) = matches (id_filter oid) d.
Proof.
  intros H. rewrite !matches_id_filter. unfold apply_update.
  rewrite lookup_union_r by exact H. reflexivity.
Qed.

Lemma apply_update_lookup (k : string) (v : Bson) (d : Doc) :
  apply_update {[ k := v ]} d !! k = Some v.
Proof.
  unfold apply_update. apply lookup_union_Some_l. apply lookup_singleton_eq.
Qed.

Lemma exists_id_match (oid : ObjectId) (u : Doc → Doc) (l : list Doc) :
  Exists (λ d, d !! "_id" = Some (BOid oid)) l →
  is_Some (update_first (matches (id_filter oid)) u l).
Proof.
  intros H. apply Exists_exists in H as (d & Hin & Hd).
  apply (update_first_is_Some _ _ _ d Hin).
  rewrite matches_id_filter. apply bool_decide_eq_true. exact Hd.
Qed.

(** Setting the flag of the todo with a given id, twice. *)
Lemma set_flag_twice (flag : bool) (oid : ObjectId) (w : World) :
  Exists (λ d, d !! "_id" = Some (BOid oid)) (todos w) →
  ∃ t w1,
    Model_findOneAndUpdate Todo (id_filter oid) {[ "completed" := BBool flag ]} w
      = (Ok (Some t), w1)
    ∧ t !! "completed" = Some (BBool flag)
    ∧ t ∈ todos w1
    ∧ t !! "_id" = Some (BOid oid)
    ∧ flag_set oid flag (todos w) (todos w1) t
    ∧ lists w1 = lists w
    ∧ ∃ w2,
        Model_findOneAndUpdate Todo (id_filter oid) {[ "completed" := BBool flag ]} w1
          = (Ok (Some t), w2)
        ∧ todos w2 = todos w1
        ∧ lists w2 = lists w1.
Proof.
  intros Hex.
  destruct (exists_id_match _ (apply_update {[ "completed" := BBool flag ]}) _ Hex)
    as [[t l] Hu].
  unfold Model_findOneAndUpdate. cbn [collection]. rewrite Hu.
  do 2 eexists. split; [reflexivity |]. cbn [set_collection record_call todos lists].
  pose proof Hu as Hs.
  apply update_first_Some in Hs as (pre & d & post & Hw & Hpre & Hd & Ht & Hl).
  rewrite matches_id_filter in Hd. apply bool_decide_eq_true in Hd.
  apply update_first_again in Hu as [Hu Hin];
    [| intros; apply id_filter_apply_update; reflexivity | intros; apply apply_update_idem].
  split; [rewrite Ht; apply apply_update_lookup |]. split; [exact Hin |].
  split; [rewrite Ht; rewrite <- Hd; apply lookup_union_r, lookup_singleton_ne; discriminate |].
  split.
  - exists pre, d, post. split; [exact Hw |]. split.
    + eapply Forall_impl; [exact Hpre |]. cbv beta. intros x Hx.
      rewrite matches_id_filter in Hx. apply bool_decide_eq_false in Hx. exact Hx.
    + split; [exact Hd |]. split; [| rewrite Ht; exact Hl].
      rewrite Ht. unfold apply_update. symmetry. apply insert_union_singleton_l.
  - split; [reflexivity |]. rewrite Hu. eexists. repeat split.
Qed.

(** C5: on a todo that exists, CompleteTodo answers 200 with the todo of the
    requested id now completed, whatever its flag was: the first stored todo
    with that id is replaced in place by the answered one, which is it with
    [completed = true] and nothing else changed, and no other todo and no
    list is touched.  A second CompleteTodo gives the same answer and leaves
    the todos and the lists as the first left them.  UncompleteTodo does the
    same with [completed = false]. *)
Theorem completing_is_idempotent `{E : Externals} (req : Request) (w : World) (oid : ObjectId) :
  error (TodoValidator.Id todoValidator (requested_id req "todoId")) = false →
  ObjectId_new (requested_id req "todoId") = Some oid →
  Exists (λ d, d !! "_id" = Some (BOid oid)) (todos w) →
  (∃ t w1,
     CompleteTodo req w =
       (Json 200 (BodyOne (Some ("Completed " +:+ quoted_name t)) "todo" t), w1)
     ∧ t !! "completed" = Some (BBool true)
     ∧ t ∈ todos w1
     ∧ fst (CompleteTodo req w1) = fst (CompleteTodo req w)
     ∧ todos (snd (CompleteTodo req w1)) = todos w1
     ∧ t !! "_id" = Some (BOid oid)
     ∧ flag_set oid true (todos w) (todos w1) t
     ∧ lists w1 = lists w
     ∧ lists (snd (CompleteTodo req w1)) = lists w1)
  ∧
  (∃ t w1,
     UncompleteTodo req w =
       (Json 200 (BodyOne (Some ("Uncompleted " +:+ quoted_name t)) "todo" t), w1)
     ∧ t !! "completed" = Some (BBool false)
     ∧ t ∈ todos w1
     ∧ fst (UncompleteTodo req w1) = fst (UncompleteTodo req w)
     ∧ todos (snd (UncompleteTodo req w1)) = todos w1
     ∧ t !! "_id" = Some (BOid oid)
     ∧ flag_set oid false (todos w) (todos w1) t
     ∧ lists w1 = lists w
     ∧ lists (snd (UncompleteTodo req w1)) = lists w1).
Proof.
  intros Hv Hid Hex. split.
  - destruct (set_flag_twice true oid w Hex)
      as (t & w1 & H1 & Hc & Hin & Ht & Hset & Hl & w2 & H2 & Hw2 & Hl2).
    exists t, w1. unfold CompleteTodo. rewrite Hv, Hid.
    cbv [handler bind ret throw or_throw]. rewrite H1, H2.
    repeat (split; [first [reflexivity | assumption] |]). exact Hl2.
  - destruct (set_flag_twice false oid w Hex)
      as (t & w1 & H1 & Hc & Hin & Ht & Hset & Hl & w2 & H2 & Hw2 & Hl2).
    exists t, w1. unfold UncompleteTodo. rewrite Hv, Hid.
    cbv [handler bind ret throw or_throw]. rewrite H1, H2.
    repeat (split; [first [reflexivity | assumption] |]). exact Hl2.
Qed.

(** C5 (witness): alice completes a todo that is completed already; it is
    the todo of the requested id that is answered, and the todos are as they
    were. *)
Lemma completing_is_idempotent_witness :
  let E := Reference.externals 0 in
  let req := Examples.on "todoId" "507f1f77bcf86cd799439013" ∅ Examples.alice in
  let w := Examples.store [Examples.bobs_todo] in
  let oid := mkObjectId "507f1f77bcf86cd799439013" in
  Examples.bobs_todo !! "completed" = Some (BBool true)
  ∧ todos (snd (CompleteTodo req w)) = todos w
  ∧ ∃ t w1,
      CompleteTodo req w =
        (Json 200 (BodyOne (Some ("Completed " +:+ quoted_name t)) "todo" t), w1)
      ∧ t !! "completed" = Some (BBool true)
      ∧ t ∈ todos w1
      ∧ fst (CompleteTodo req w1) = fst (CompleteTodo req w)
      ∧ todos (snd (CompleteTodo req w1)) = todos w1
      ∧ t !! "_id" = Some (BOid oid)
      ∧ flag_set oid true (todos w) (todos w1) t
      ∧ lists w1 = lists w
      ∧ lists (snd (CompleteTodo req w1)) = lists w1.
Proof.
  intros E req w oid. split; [reflexivity |]. split; [vm_compute; reflexivity |].
  refine (proj1 (completing_is_idempotent (E := E) req w oid eq_refl eq_refl _)).
  constructor 1. reflexivity.
Defined.

(** ** UpdateTodo *)

Lemma UpdateTodo_upd_userId (uid : ObjectId) (a b c e f : option Bson) (due : Z) :
  set_field "listId" a
    (<["userId" := BOid uid]>
       (set_field "name" b
          (set_field "notes" c
             (set_field "url" e
                (<["due" := BDate due]> (set_field "priority" f ∅))))))
    !! "userId" = Some (BOid uid).
Proof.
  rewrite set_field_lookup_ne by discriminate. apply lookup_insert_eq.
Qed.

(** C9: when UpdateTodo answers 200, the filter it sent holds the [_id]
    alone, the todo that had this [_id], whoever owned it, is replaced by the
    answered one, and the answered todo belongs to the requester. *)
Theorem UpdateTodo_takes_ownership `{E : Externals}
    (req : Request) (w w' : World) (msg : option string) (t : Doc) :
  ObjectId_new (JStr (toHexString (_id (user req)))) = Some (_id (user req)) →
  UpdateTodo req w = (Json 200 (BodyOne msg "todo" t), w') →
  t !! "userId" = Some (BOid (_id (user req)))
  ∧ ∃ oid upd pre d post,
      ObjectId_new (requested_id req "todoId") = Some oid
      ∧ calls w' = calls w ++ [CallFindOneAndUpdate Todo (id_filter oid) upd]
      ∧ upd !! "userId" = Some (BOid (_id (user req)))
      ∧ todos w = pre ++ d :: post
      ∧ d !! "_id" = Some (BOid oid)
      ∧ Forall (λ x, x !! "_id" ≠ Some (BOid oid)) pre
      ∧ todos w' = pre ++ t :: post.
Proof.
  intros Hhex. unfold UpdateTodo.
  change (formData_get (UpdateTodo_formData req) "userId")
    with (JStr (toHexString (_id (user req)))).
  change (formData_get (UpdateTodo_formData req) "_id") with (requested_id req "todoId").
  rewrite Hhex.
  destruct (all_valid (UpdateTodo_validations req)); cbn [negb]; [| run; discriminate].
  destruct (ObjectId_new (requested_id req "todoId")) as [oid|]; [| run; discriminate].
  destruct (moment_toDate _) as [due|]; [| run; discriminate].
  run.
  destruct (update_first _ _ (todos w)) as [[t' l']|] eqn:Hu; [| discriminate].
  intros H. injection H as <- <- <-.
  apply update_first_Some in Hu as (pre & d & post & Hw & Hpre & Hd & -> & ->).
  split.
  - unfold apply_update. apply lookup_union_Some_l. apply UpdateTodo_upd_userId.
  - eexists oid, _, pre, d, post. repeat split.
    + apply UpdateTodo_upd_userId.
    + exact Hw.
    + rewrite matches_id_filter in Hd. apply bool_decide_eq_true in Hd. exact Hd.
    + eapply Forall_impl; [exact Hpre |]. cbv beta. intros x Hx.
      rewrite matches_id_filter in Hx. apply bool_decide_eq_false in Hx. exact Hx.
Qed.

(** C9 (witness): alice updates a todo of bob and becomes its owner. *)
Lemma UpdateTodo_takes_ownership_witness :
  let E := Reference.externals 0 in
  let req := Examples.on "todoId" "507f1f77bcf86cd799439013"
               Examples.takeover_body Examples.alice in
  let w := Examples.store [Examples.bobs_todo] in
  Examples.bobs_todo !! "userId" = Some (BOid (_id Examples.bob))
  ∧ fst (UpdateTodo req w) =
      Json 200 (BodyOne (Some ("Updated " +:+ quoted_name Examples.taken_todo))
                  "todo" Examples.taken_todo)
  ∧ todos (snd (UpdateTodo req w)) = [Examples.taken_todo]
  ∧ Examples.taken_todo !! "userId" = Some (BOid (_id Examples.alice)).
Proof.
  intros E req w.
  assert (Hr : UpdateTodo req w =
               (Json 200 (BodyOne (Some ("Updated " +:+ quoted_name Examples.taken_todo))
                            "todo" Examples.taken_todo),
                snd (UpdateTodo req w))) by (vm_compute; reflexivity).
  split; [reflexivity |].
  split; [rewrite Hr; reflexivity |].
  split; [vm_compute; reflexivity |].
  exact (proj1 (UpdateTodo_takes_ownership (E := E) req w _ _ _ eq_refl Hr)).
Defined.

(** ** UpdateTodoPriority *)





(** ** The message of a 404 *)

Lemma not_found_is_not_the_template (id : JSValue) (action sid : string) :
  not_found "Todo" id ≠ spec_not_found_message action sid.
Proof. unfold not_found, spec_not_found_message. simpl. discriminate. Qed.

(** Whatever the imported functions do, a 404 of these four operations carries
    the message [Todo with ID <id> is not found!]. *)
Lemma not_found_message_of_404 `{E : Externals} (req : Request) (w : World)
    (m : option string) (vs : list (string * Validation)) :
  (fst (UpdateTodo req w) = Next (HttpError 404 m vs) →
   m = Some (not_found "Todo" (requested_id req "todoId")))
  ∧ (fst (DeleteTodo req w) = Next (HttpError 404 m vs) →
     m = Some (not_found "Todo" (requested_id_url req "todoId")))
  ∧ (fst (CompleteTodo req w) = Next (HttpError 404 m vs) →
     m = Some (not_found "Todo" (requested_id req "todoId")))
  ∧ (fst (UncompleteTodo req w) = Next (HttpError 404 m vs) →
     m = Some (not_found "Todo" (requested_id req "todoId"))).
Proof.
  repeat split.
  - unfold UpdateTodo.
    change (formData_get (UpdateTodo_formData req) "_id") with (requested_id req "todoId").
    destruct (all_valid _); cbn [negb]; [| run; discriminate].
    destruct (ObjectId_new (requested_id req "todoId")); [| run; discriminate].
    destruct (ObjectId_new _); [| run; discriminate].
    destruct (moment_toDate _); [| run; discriminate].
    run. destruct (update_first _ _ _) as [[d l]|]; cbn [fst]; [discriminate |].
    intros H. injection H as <- _. reflexivity.
  - unfold DeleteTodo.
    destruct (error _); [run; discriminate |].
    destruct (ObjectId_new _); [| run; discriminate].
    run. destruct (delete_first _ _) as [[d l]|]; cbn [fst]; [discriminate |].
    intros H. injection H as <- _. reflexivity.
  - unfold CompleteTodo.
    destruct (error _); [run; discriminate |].
    destruct (ObjectId_new _); [| run; discriminate].
    run. destruct (update_first _ _ _) as [[d l]|]; cbn [fst]; [discriminate |].
    intros H. injection H as <- _. reflexivity.
  - unfold UncompleteTodo.
    destruct (error _); [run; discriminate |].
    destruct (ObjectId_new _); [| run; discriminate].
    run. destruct (update_first _ _ _) as [[d l]|]; cbn [fst]; [discriminate |].
    intros H. injection H as <- _. reflexivity.
Qed.

(** C2 (the code at the failing input): for a well-formed id that no todo
    has, UpdateTodo, DeleteTodo, CompleteTodo and UncompleteTodo answer 404
    with the message [Todo with ID <id> is not found!], which is not the
    message of the template. *)
Theorem not_found_message_is_not_the_template :
  let E := Reference.externals 0 in
  let id := "507f1f77bcf86cd799439011" in
  let req := Examples.on "todoId" id Examples.takeover_body Examples.alice in
  let w := Examples.store [Examples.bobs_todo] in
  let said := Next (HttpError 404 (Some "Todo with ID 507f1f77bcf86cd799439011 is not found!") []) in
  (fst (UpdateTodo req w) = said
   ∧ fst (DeleteTodo req w) = said
   ∧ fst (CompleteTodo req w) = said
   ∧ fst (UncompleteTodo req w) = said)
  ∧ Forall (λ action, said ≠ Next (HttpError 404 (Some (spec_not_found_message action id)) []))
      ["update"; "delete"; "complete"; "uncomplete"].
Proof.
  cbv zeta. split.
  - vm_compute. repeat split.
  - repeat constructor; discriminate.
Qed.

(** ** Token issuance *)

Lemma User_updateOne_first (name : string) (tokens : list string)
    (users : list Tokens.IUser) (u : Tokens.IUser) :
  Tokens.User_findOne name users = Some u →
  ∃ pre post,
    users = pre ++ u :: post
    ∧ Forall (λ x, Tokens.username x ≠ name) pre
    ∧ Tokens.username u = name
    ∧ Tokens.User_updateOne name tokens users =
        pre ++ Tokens.mkUser (Tokens.firstName u) (Tokens.lastName u) (Tokens.username u)
                 (Tokens.email u) tokens :: post.
Proof.
  unfold Tokens.User_findOne.
  induction users as [|x r IH]; simpl; [discriminate |].
  destruct (String.eqb (Tokens.username x) name) eqn:Hx.
  - intros H. injection H as <-. apply String.eqb_eq in Hx.
    exists [], r. repeat split; [constructor | exact Hx].
  - intros H. destruct (IH H) as (pre & post & -> & Hpre & Hu & ->).
    apply String.eqb_neq in Hx.
    exists (x :: pre), post. repeat split; [constructor; assumption | exact Hu].
Qed.

(** C8: when [generateUserTokens] resolves, the first user with the given
    username, the one [findOne] returned, is stored with the refresh token
    just signed added at the end of its [refreshTokens]: every token it held
    keeps its position and the list is one longer; the user's other fields
    and all other users are as before. *)
Theorem generateUserTokens_appends
    (signJWT : list (string * string) → option string → string → option string)
    (access_secret refresh_secret : option string)
    (userData : Tokens.IUser) (users users' : list Tokens.IUser) (toks : Tokens.UserTokens) :
  Tokens.generateUserTokens signJWT access_secret refresh_secret userData users
    = (Tokens.Resolved toks, users') →
  ∃ pre u post,
    let stored := Tokens.refreshTokens u ++ [Tokens.refreshToken toks] in
    users = pre ++ u :: post
    ∧ Forall (λ x, Tokens.username x ≠ Tokens.username userData) pre
    ∧ Tokens.username u = Tokens.username userData
    ∧ signJWT [("username", Tokens.username userData)] refresh_secret "365d"
        = Some (Tokens.refreshToken toks)
    ∧ users' = pre ++ Tokens.mkUser (Tokens.firstName u) (Tokens.lastName u)
                        (Tokens.username u) (Tokens.email u) stored :: post
    ∧ length stored = S (length (Tokens.refreshTokens u))
    ∧ (∀ i t, Tokens.refreshTokens u !! i = Some t → stored !! i = Some t)
    ∧ stored !! length (Tokens.refreshTokens u) = Some (Tokens.refreshToken toks).
Proof.
  unfold Tokens.generateUserTokens.
  destruct (signJWT _ access_secret _) as [access|]; [| discriminate].
  destruct (signJWT _ refresh_secret _) as [refresh|] eqn:Hr; [| discriminate].
  destruct (Tokens.User_findOne _ users) as [u|] eqn:Hf; [| discriminate].
  intros H. injection H as <- <-.
  destruct (User_updateOne_first _ (Tokens.refreshTokens u ++ [refresh]) _ _ Hf)
    as (pre & post & Hu & Hpre & Hn & Hupd).
  exists pre, u, post. cbv zeta. cbn [Tokens.refreshToken].
  repeat split; try assumption.
  - rewrite length_app. simpl. lia.
  - intros i t Hi. apply lookup_app_l_Some. exact Hi.
  - rewrite lookup_app_r by lia. rewrite Nat.sub_diag. reflexivity.
Qed.

(** Token issuance resolves when both signatures succeed and the user is stored. *)
Lemma generateUserTokens_resolves
    (signJWT : list (string * string) → option string → string → option string)
    (access_secret refresh_secret : option string)
    (userData u : Tokens.IUser) (users : list Tokens.IUser) (access refresh : string) :
  signJWT [("firstName", Tokens.firstName userData); ("lastName", Tokens.lastName userData);
           ("username", Tokens.username userData); ("email", Tokens.email userData)]
          access_secret "7d" = Some access →
  signJWT [("username", Tokens.username userData)] refresh_secret "365d" = Some refresh →
  Tokens.User_findOne (Tokens.username userData) users = Some u →
  fst (Tokens.generateUserTokens signJWT access_secret refresh_secret userData users)
    = Tokens.Resolved (Tokens.mkTokens access refresh).
Proof.
  intros Ha Hr Hu. unfold Tokens.generateUserTokens. rewrite Ha, Hr, Hu. reflexivity.
Qed.

(** C8 (witness): carol signs in a third time. *)
Lemma generateUserTokens_appends_witness :
  let users := [Examples.dave; Examples.carol] in
  let r := Tokens.generateUserTokens Examples.sign (Some "a") (Some "b")
             Examples.carol users in
  fst r = Tokens.Resolved (Tokens.mkTokens "jwt/a/7d" "jwt/b/365d")
  ∧ ∃ pre u post,
      users = pre ++ u :: post
      ∧ Tokens.username u = "carol"
      ∧ snd r = pre ++ Tokens.mkUser (Tokens.firstName u) (Tokens.lastName u)
                         (Tokens.username u) (Tokens.email u)
                         (Tokens.refreshTokens u ++ ["jwt/b/365d"]) :: post.
Proof.
  intros users r. split; [reflexivity |].
  destruct (generateUserTokens_appends Examples.sign (Some "a") (Some "b")
              Examples.carol users (snd r) (Tokens.mkTokens "jwt/a/7d" "jwt/b/365d")
              eq_refl)
    as (pre & u & post & Hu & _ & Hn & _ & Hs & _).
  exists pre, u, post. repeat split; assumption.
Defined.

(** * Further properties of the controllers *)

(** ** GetAllTodos *)

Lemma GetAllTodos_conditions_cases `{E : Externals} (req : Request) (w : World) :
  snd (GetAllTodos_conditions req w) = w
  ∧ match fst (GetAllTodos_conditions req w) with
    | Ok c => c !! "completed" = Some (CEq (BBool false))
    | Throw (HttpError s _ v) => s = 400%nat ∧ v = []
    | Throw (Exception _) => True
    end.
Proof.
  unfold GetAllTodos_conditions.
  assert (H0 : (<["due" := CEq (BDate moment_now)]> {[ "completed" := CEq (BBool false) ]}
                : gmap string Cond) !! "completed" = Some (CEq (BBool false))).
  { rewrite lookup_insert_ne by discriminate. apply lookup_singleton_eq. }
  destruct (query_or_null req "listId") as [l|].
  - destruct (ObjectId_isValid l); [| run; auto].
    destruct (ObjectId_new (JStr l)) as [oid|]; [| run; auto].
    destruct (String.eqb _ "all"); [run; split; [reflexivity |] |].
    + rewrite lookup_delete_ne by discriminate.
      rewrite lookup_insert_ne by discriminate. exact H0.
    + destruct (moment_MM_DD_YYYY _); run; [split; [reflexivity |] | auto].
      rewrite !lookup_insert_ne by discriminate. apply lookup_singleton_eq.
  - destruct (String.eqb _ "all"); [run; split; [reflexivity |] |].
    + rewrite lookup_delete_ne by discriminate. exact H0.
    + destruct (moment_MM_DD_YYYY _); run; [split; [reflexivity |] | auto].
      rewrite !lookup_insert_ne by discriminate. apply lookup_singleton_eq.
Qed.

(** The ways in which GetAllTodos ends. *)
Lemma GetAllTodos_ends `{E : Externals} (req : Request) (w : World) :
  todos (snd (GetAllTodos req w)) = todos w
  ∧ lists (snd (GetAllTodos req w)) = lists w
  ∧ match fst (GetAllTodos req w) with
    | Json s (BodyMany total k found) =>
        s = 200%nat ∧ k = "todos" ∧ total = length found
        ∧ Forall (λ d, d ∈ todos w ∧ d !! "completed" = Some (BBool false)) found
    | Json _ (BodyOne _ _ _) => False
    | Next (HttpError s _ _) => s = 400%nat ∧ calls (snd (GetAllTodos req w)) = calls w
    | Next (Exception _) => calls (snd (GetAllTodos req w)) = calls w
    end.
Proof.
  destruct (GetAllTodos_conditions_cases req w) as [Hw Hc].
  unfold GetAllTodos. cbv [handler bind].
  destruct (GetAllTodos_conditions req w) as [[c|[s m v|n]] w1];
    cbn [fst snd] in Hw, Hc; subst w1.
  - run. repeat split.
    apply Forall_forall. intros d Hd. unfold find_docs in Hd.
    apply list_elem_of_In, filter_In in Hd as [Hin Hm]. split.
    + apply list_elem_of_In. exact Hin.
    + apply (matches_fields_lookup _ _ _ _ Hm) in Hc.
      apply bool_decide_eq_true in Hc. exact Hc.
  - destruct Hc as [-> ->]. cbn. auto.
  - cbn. auto.
Qed.

(** X1: whatever the request, GetAllTodos changes neither todos nor lists;
    when it answers, it answers 200 with stored todos that are all not
    completed and with their number as [total]; when it fails, it fails with
    400 or an exception of a library, before the store is called. *)
Theorem GetAllTodos_only_uncompleted `{E : Externals} (req : Request) (w : World) :
  todos (snd (GetAllTodos req w)) = todos w
  ∧ lists (snd (GetAllTodos req w)) = lists w
  ∧ match fst (GetAllTodos req w) with
    | Json s (BodyMany total k found) =>
        s = 200%nat ∧ k = "todos" ∧ total = length found
        ∧ Forall (λ d, d ∈ todos w ∧ d !! "completed" = Some (BBool false)) found
    | Json _ (BodyOne _ _ _) => False
    | Next (HttpError s _ _) => s = 400%nat ∧ calls (snd (GetAllTodos req w)) = calls w
    | Next (Exception _) => calls (snd (GetAllTodos req w)) = calls w
    end.
Proof. exact (GetAllTodos_ends req w). Qed.

Lemma matches_fields_insert (k : string) (c : Cond) (m : gmap string Cond) (d : Doc) :
  m !! k = None →
  matches (FFields (<[k := c]> m)) d = cond_holds c (d !! k) && matches (FFields m) d.
Proof.
  intros Hk. simpl.
  destruct (cond_holds c (d !! k)) eqn:Hc; simpl.
  - apply bool_decide_ext. rewrite map_Forall_insert by exact Hk. tauto.
  - apply bool_decide_eq_false. rewrite map_Forall_insert by exact Hk.
    intros [H _]. congruence.
Qed.

(** X2: when the [due] option is 'all' (absent, empty or spelled out) and the
    request names a valid list, the filter sent is
    [{ completed: false, listId }], without a condition on [due], and the
    answer holds exactly the stored todos of that list that are not completed,
    whatever their due date. *)
Theorem GetAllTodos_of_a_list `{E : Externals}
    (req : Request) (w : World) (l : string) (oid : ObjectId) :
  due_is_all req →
  query_or_null req "listId" = Some l →
  ObjectId_isValid l = true →
  ObjectId_new (JStr l) = Some oid →
  let c : gmap string Cond := <["listId" := CEq (BOid oid)]> not_completed in
  let found :=
    List.filter (λ d, bool_decide (d !! "listId" = Some (BOid oid))
                      && bool_decide (d !! "completed" = Some (BBool false))) (todos w) in
  GetAllTodos req w =
    (Json 200 (BodyMany (length found) "todos" found),
     mkWorld (todos w) (lists w)
       (calls w ++ [CallFind Todo (FFields c) None; CallCountDocuments Todo (FFields c)]))
  ∧ c !! "due" = None.
Proof.
  intros Hall Hl Hv Hoid c found. split; [| reflexivity].
  unfold due_is_all in Hall.
  unfold GetAllTodos, GetAllTodos_conditions. rewrite Hl, Hv, Hoid, Hall. run.
  cbn [String.eqb Ascii.eqb Bool.eqb andb].
  assert (Hc : delete "due" (<["listId" := CEq (BOid oid)]>
                 (<["due" := CEq (BDate moment_now)]>
                    ({[ "completed" := CEq (BBool false) ]} : gmap string Cond))) = c).
  { unfold c, not_completed. rewrite delete_insert_ne by discriminate.
    rewrite delete_insert_eq. rewrite delete_singleton_ne by discriminate. reflexivity. }
  rewrite Hc. unfold find_docs, count_docs.
  rewrite (filter_matches_ext (FFields c)
             (λ d, bool_decide (d !! "listId" = Some (BOid oid))
                   && bool_decide (d !! "completed" = Some (BBool false)))).
  - rewrite <- app_assoc. reflexivity.
  - intros d. unfold c. rewrite matches_fields_insert by reflexivity.
    rewrite matches_not_completed. reflexivity.
Qed.

(** X2 (witness): [?listId=cccccccccccccccccccccccc&due=all] over a list with
    a completed and an open todo. *)
Lemma GetAllTodos_of_a_list_witness :
  let E := Reference.externals Examples.jan2_noon in
  let req := Examples.get (<["listId" := "cccccccccccccccccccccccc"]> {[ "due" := "all" ]}) in
  let w := Examples.store [Examples.old_todo; Examples.bread; Examples.milk] in
  fst (GetAllTodos req w) = Json 200 (BodyMany 1 "todos" [Examples.milk]).
Proof.
  intros E req w.
  pose proof (GetAllTodos_of_a_list (E := E) req w "cccccccccccccccccccccccc"
                Examples.groceries eq_refl eq_refl eq_refl eq_refl) as H.
  cbv zeta in H. destruct H as [H _]. rewrite H. vm_compute. reflexivity.
Defined.

(** X3: a [listId] that is not a valid id is refused with 400
    'Invalid list ID!' before the [due] option is looked at and before the
    store is called. *)
Theorem GetAllTodos_invalid_listId `{E : Externals} (req : Request) (w : World) (l : string) :
  query_or_null req "listId" = Some l →
  ObjectId_isValid l = false →
  GetAllTodos req w = (Next (HttpError 400 (Some "Invalid list ID!") []), w).
Proof.
  intros Hl Hv. unfold GetAllTodos, GetAllTodos_conditions. rewrite Hl, Hv.
  run. reflexivity.
Qed.

(** X3 (witness): a bad list id together with a bad [due]. *)
Lemma GetAllTodos_invalid_listId_witness :
  let E := Reference.externals Examples.jan2_noon in
  let req := Examples.get (<["listId" := "groceries"]> {[ "due" := "tomorrow" ]}) in
  GetAllTodos req (Examples.store [Examples.milk])
  = (Next (HttpError 400 (Some "Invalid list ID!") []), Examples.store [Examples.milk]).
Proof.
  intros E req.
  exact (GetAllTodos_invalid_listId (E := E) req _ "groceries" eq_refl eq_refl).
Defined.

(** ** GetAllLists *)

(** X4: GetAllLists changes nothing; its [total] is the number of all the
    stored lists of the requester, while the lists it answers with are stored
    lists of the requester, each answered as often as it is stored at most
    (they are the beginning of a rearrangement of the requester's stored
    lists), and the smaller of 100 and [total] in number: beyond 100 lists,
    [total] exceeds what the response carries. *)
Theorem GetAllLists_total_and_page `{E : Externals} (req : Request) (w : World) :
  ∃ total found,
    fst (GetAllLists req w) = Json 200 (BodyMany total "lists" found)
    ∧ total = length (List.filter (owned_by (_id (user req))) (lists w))
    ∧ length found = Nat.min 100 total
    ∧ Forall (λ d, d ∈ lists w ∧ d !! "userId" = Some (BOid (_id (user req)))) found
    ∧ (∃ rest, found ++ rest ≡ₚ List.filter (owned_by (_id (user req))) (lists w))
    ∧ todos (snd (GetAllLists req w)) = todos w
    ∧ lists (snd (GetAllLists req w)) = lists w.
Proof.
  unfold GetAllLists. run. do 2 eexists. split; [reflexivity |].
  assert (Hf : List.filter (matches (FFields {[ "userId" := CEq (BOid (_id (user req))) ]}))
                 (lists w) = List.filter (owned_by (_id (user req))) (lists w)).
  { apply filter_matches_ext. intros d. apply userId_filter_owned. }
  unfold count_docs, find_docs, GetAllLists_options. cbn [limit skip sort].
  rewrite Hf. repeat split.
  - rewrite length_take, drop_0. f_equal.
    apply Permutation_length, sort_docs_perm.
  - apply Forall_take. rewrite drop_0, sort_docs_perm.
    apply Forall_forall. intros d Hd.
    apply list_elem_of_In, filter_In in Hd as [Hd Ho]. split.
    + apply list_elem_of_In. exact Hd.
    + unfold owned_by in Ho. apply bool_decide_eq_true in Ho. exact Ho.
  - rewrite drop_0. eexists. rewrite take_drop. apply sort_docs_perm.
Qed.

(** ** Refusals *)

(** X5: the operations that take the id alone validate it first: when the id
    validator reports an error, the answer is 400 with the validator's text,
    whatever else the request holds, and the store is neither called nor
    changed. *)
Theorem invalid_id_is_refused_first `{E : Externals} (req : Request) (w : World) :
  (∀ v, v = TodoValidator.Id todoValidator (requested_id req "todoId") →
        error v = true →
        CompleteTodo req w = (Next (HttpError 400 (text v) []), w)
        ∧ UncompleteTodo req w = (Next (HttpError 400 (text v) []), w)
        ∧ UpdateTodoPriority req w = (Next (HttpError 400 (text v) []), w)
        ∧ UpdateTodoList req w = (Next (HttpError 400 (text v) []), w))
  ∧ (∀ v, v = TodoValidator.Id todoValidator (requested_id_url req "todoId") →
          error v = true →
          DeleteTodo req w = (Next (HttpError 400 (text v) []), w))
  ∧ (∀ v, v = ListValidator.Id listValidator (requested_id_url req "listId") →
          error v = true →
          DeleteList req w = (Next (HttpError 400 (text v) []), w)).
Proof.
  repeat split; intros; subst v;
    unfold CompleteTodo, UncompleteTodo, UpdateTodoPriority, UpdateTodoList,
      DeleteTodo, DeleteList;
    match goal with H : error _ = true |- _ => rewrite H end; reflexivity.
Qed.

(** X5 (witness): a priority update and a deletion with the id [not-an-id]. *)
Lemma invalid_id_is_refused_first_witness :
  let E := Reference.externals 0 in
  let req := Examples.on "todoId" "not-an-id" {[ "priority" := JNum 1 ]} Examples.alice in
  let w := Examples.store [Examples.bobs_todo] in
  UpdateTodoPriority req w = (Next (HttpError 400 (Some "Invalid todo ID!") []), w)
  ∧ DeleteTodo req w = (Next (HttpError 400 (Some "Invalid todo ID!") []), w).
Proof.
  intros E req w.
  destruct (invalid_id_is_refused_first (E := E) req w) as (H1 & H2 & _).
  split.
  - exact (proj1 (proj2 (proj2 (H1 _ eq_refl eq_refl)))).
  - exact (H2 _ eq_refl eq_refl).
Defined.

Ltac settle := run; cbn; auto 8.

Section Failures.
Context `{E : Externals}.

Lemma GetAllTodos_fails_without_effect : fails_without_effect GetAllTodos.
Proof.
  intros req w. destruct (GetAllTodos_ends req w) as (Ht & Hl & H).
  destruct (fst (GetAllTodos req w)) as [s [total k found|m k d]|[s m v|n]].
  - tauto.
  - contradiction.
  - destruct H as [-> _]. auto.
  - auto.
Qed.

Lemma UpdateTodo_fails_without_effect : fails_without_effect UpdateTodo.
Proof.
  intros req w. unfold UpdateTodo.
  destruct (all_valid _); cbn [negb]; [| settle].
  destruct (ObjectId_new (formData_get (UpdateTodo_formData req) "_id")); [| settle].
  destruct (ObjectId_new _); [| settle].
  destruct (moment_toDate _); [| settle].
  run. destruct (update_first _ _ _) as [[d l]|]; settle.
Qed.

Lemma CompleteTodo_fails_without_effect : fails_without_effect CompleteTodo.
Proof.
  intros req w. unfold CompleteTodo.
  destruct (error _); [settle |].
  destruct (ObjectId_new _); [| settle].
  run. destruct (update_first _ _ _) as [[d l]|]; settle.
Qed.

Lemma UncompleteTodo_fails_without_effect : fails_without_effect UncompleteTodo.
Proof.
  intros req w. unfold UncompleteTodo.
  destruct (error _); [settle |].
  destruct (ObjectId_new _); [| settle].
  run. destruct (update_first _ _ _) as [[d l]|]; settle.
Qed.

Lemma UpdateTodoPriority_fails_without_effect : fails_without_effect UpdateTodoPriority.
Proof.
  intros req w. unfold UpdateTodoPriority.
  destruct (error _); [settle |].
  destruct (negb (truthy _)); [settle |].
  destruct (negb (bool_decide _)); [settle |].
  destruct (ObjectId_new _); [| settle].
  run. destruct (update_first _ _ _) as [[d l]|]; settle.
Qed.

Lemma UpdateTodoList_fails_without_effect : fails_without_effect UpdateTodoList.
Proof.
  intros req w. unfold UpdateTodoList.
  destruct (error (TodoValidator.Id _ _)); [settle |].
  destruct (error (TodoValidator.ListId _ _)); [settle |].
  destruct (ObjectId_new (requested_id req "todoId")); [| settle].
  destruct (prop (body req) "listId").
  all: try (match goal with
            | |- context [ObjectId_new ?v] => destruct (ObjectId_new v)
            end; [| settle]).
  all: run; destruct (update_first _ _ _) as [[d l]|]; settle.
Qed.

Lemma DeleteTodo_fails_without_effect : fails_without_effect DeleteTodo.
Proof.
  intros req w. unfold DeleteTodo.
  destruct (error _); [settle |].
  destruct (ObjectId_new _); [| settle].
  run. destruct (delete_first _ _) as [[d l]|]; settle.
Qed.

Lemma GetAllLists_fails_without_effect : fails_without_effect GetAllLists.
Proof. intros req w. unfold GetAllLists. settle. Qed.

Lemma UpdateList_fails_without_effect : fails_without_effect UpdateList.
Proof.
  intros req w. unfold UpdateList.
  destruct (all_valid _); cbn [negb]; [| settle].
  destruct (ObjectId_new (formData_get (UpdateList_formData req) "_id")); [| settle].
  destruct (ObjectId_new _); [| settle].
  run. destruct (update_first _ _ _) as [[d l]|]; settle.
Qed.

Lemma DeleteList_fails_without_effect : fails_without_effect DeleteList.
Proof.
  intros req w. unfold DeleteList.
  destruct (error _); [settle |].
  destruct (ObjectId_new _); [| settle].
  run. destruct (delete_first _ _) as [[d l]|]; settle.
Qed.

End Failures.

(** X6: each of these ten operations either answers 200 or fails with 400,
    404 or an exception of a library, and a request that fails leaves the
    todos and the lists exactly as they were. *)
Theorem failures_have_no_effect `{E : Externals} :
  Forall fails_without_effect
    [GetAllTodos; UpdateTodo; CompleteTodo; UncompleteTodo; UpdateTodoPriority;
     UpdateTodoList; DeleteTodo; GetAllLists; UpdateList; DeleteList].
Proof.
  constructor; [apply GetAllTodos_fails_without_effect |].
  constructor; [apply UpdateTodo_fails_without_effect |].
  constructor; [apply CompleteTodo_fails_without_effect |].
  constructor; [apply UncompleteTodo_fails_without_effect |].
  constructor; [apply UpdateTodoPriority_fails_without_effect |].
  constructor; [apply UpdateTodoList_fails_without_effect |].
  constructor; [apply DeleteTodo_fails_without_effect |].
  constructor; [apply GetAllLists_fails_without_effect |].
  constructor; [apply UpdateList_fails_without_effect |].
  constructor; [apply DeleteList_fails_without_effect | constructor].
Qed.

(** ** What an update leaves alone *)

Lemma update_first_changes_only (ks : list string) (p : Doc → bool) (upd : Doc)
    (l l' : list Doc) (t : Doc) :
  (∀ k, k ∉ ks → upd !! k = None) →
  update_first p (apply_update upd) l = Some (t, l') →
  changes_only ks l l'.
Proof.
  intros Hk H. right.
  apply update_first_Some in H as (pre & d & post & -> & _ & _ & -> & ->).
  exists pre, d, (apply_update upd d), post. repeat split.
  intros k Hn. unfold apply_update. apply lookup_union_r. apply Hk. exact Hn.
Qed.

Lemma singleton_frame (k0 : string) (v : Bson) (k : string) :
  k ∉ [k0] → ({[ k0 := v ]} : Doc) !! k = None.
Proof.
  intros H. apply lookup_singleton_ne. intros ->. apply H. apply elem_of_cons. left. reflexivity.
Qed.

Lemma set_field_frame (k0 : string) (v : option Bson) (upd : Doc) (ks : list string) (k : string) :
  k0 ∈ ks → k ∉ ks → upd !! k = None → set_field k0 v upd !! k = None.
Proof.
  intros H0 Hk Hu. rewrite set_field_lookup_ne; [exact Hu |].
  intros ->. contradiction.
Qed.

Lemma insert_frame (k0 : string) (v : Bson) (upd : Doc) (ks : list string) (k : string) :
  k0 ∈ ks → k ∉ ks → upd !! k = None → <[k0 := v]> upd !! k = None.
Proof.
  intros H0 Hk Hu. rewrite lookup_insert_ne; [exact Hu |].
  intros ->. contradiction.
Qed.

Ltac in_keys := refine (bool_decide_unpack _ _); vm_compute; exact I.

Ltac frame :=
  repeat first
    [ apply lookup_empty
    | eapply set_field_frame; [| eassumption |]; [in_keys |]
    | eapply insert_frame; [| eassumption |]; [in_keys |] ].

Section Frames.
Context `{E : Externals}.

Ltac unchanged := run; split; [left; reflexivity | reflexivity].

Ltac changed Hf :=
  cbn [snd todos lists]; split; [| reflexivity];
  eapply update_first_changes_only; [| exact Hf].

Lemma CompleteTodo_frame : edits_todo_fields ["completed"] CompleteTodo.
Proof.
  intros req w. unfold CompleteTodo.
  destruct (error _); [unchanged |].
  destruct (ObjectId_new _); [| unchanged].
  run. destruct (update_first _ _ _) as [[d l]|] eqn:Hf; [| unchanged].
  changed Hf. intros k. apply singleton_frame.
Qed.

Lemma UncompleteTodo_frame : edits_todo_fields ["completed"] UncompleteTodo.
Proof.
  intros req w. unfold UncompleteTodo.
  destruct (error _); [unchanged |].
  destruct (ObjectId_new _); [| unchanged].
  run. destruct (update_first _ _ _) as [[d l]|] eqn:Hf; [| unchanged].
  changed Hf. intros k. apply singleton_frame.
Qed.

Lemma UpdateTodoPriority_frame : edits_todo_fields ["priority"] UpdateTodoPriority.
Proof.
  intros req w. unfold UpdateTodoPriority.
  destruct (error _); [unchanged |].
  destruct (negb (truthy _)); [unchanged |].
  destruct (negb (bool_decide _)); [unchanged |].
  destruct (ObjectId_new _); [| unchanged].
  run. destruct (update_first _ _ _) as [[d l]|] eqn:Hf; [| unchanged].
  changed Hf. intros k Hk. frame.
Qed.

Lemma UpdateTodoList_frame : edits_todo_fields ["listId"] UpdateTodoList.
Proof.
  intros req w. unfold UpdateTodoList.
  destruct (error (TodoValidator.Id _ _)); [unchanged |].
  destruct (error (TodoValidator.ListId _ _)); [unchanged |].
  destruct (ObjectId_new (requested_id req "todoId")); [| unchanged].
  destruct (prop (body req) "listId").
  all: try (match goal with
            | |- context [ObjectId_new ?v] => destruct (ObjectId_new v)
            end; [| unchanged]).
  all: run; destruct (update_first _ _ _) as [[d l]|] eqn:Hf; [| unchanged].
  all: changed Hf; intros k; apply singleton_frame.
Qed.

Lemma UpdateTodo_frame :
  edits_todo_fields ["listId"; "userId"; "name"; "notes"; "url"; "due"; "priority"] UpdateTodo.
Proof.
  intros req w. unfold UpdateTodo.
  destruct (all_valid _); cbn [negb]; [| unchanged].
  destruct (ObjectId_new (formData_get (UpdateTodo_formData req) "_id")); [| unchanged].
  destruct (ObjectId_new _); [| unchanged].
  destruct (moment_toDate _); [| unchanged].
  run. destruct (update_first _ _ _) as [[d l]|] eqn:Hf; [| unchanged].
  changed Hf. intros k Hk. frame.
Qed.

Lemma UpdateList_frame (req : Request) (w : World) :
  changes_only ["name"; "color"] (lists w) (lists (snd (UpdateList req w)))
  ∧ todos (snd (UpdateList req w)) = todos w.
Proof.
  unfold UpdateList.
  destruct (all_valid _); cbn [negb]; [| unchanged].
  destruct (ObjectId_new (formData_get (UpdateList_formData req) "_id")); [| unchanged].
  destruct (ObjectId_new _); [| unchanged].
  run. destruct (update_first _ _ _) as [[d l]|] eqn:Hf; [| unchanged].
  cbn [snd todos lists]. split; [| reflexivity].
  eapply update_first_changes_only; [| exact Hf]. intros k Hk. frame.
Qed.

End Frames.

(** X7: an update touches at most one document, and in it only its own
    fields: CompleteTodo and UncompleteTodo only [completed],
    UpdateTodoPriority only [priority], UpdateTodoList only [listId],
    UpdateTodo never [_id] or [completed], UpdateList only [name] and
    [color]; the todo operations leave the lists alone and UpdateList the
    todos. *)
Theorem updates_keep_the_other_fields `{E : Externals} :
  edits_todo_fields ["completed"] CompleteTodo
  ∧ edits_todo_fields ["completed"] UncompleteTodo
  ∧ edits_todo_fields ["priority"] UpdateTodoPriority
  ∧ edits_todo_fields ["listId"] UpdateTodoList
  ∧ edits_todo_fields ["listId"; "userId"; "name"; "notes"; "url"; "due"; "priority"]
      UpdateTodo
  ∧ (∀ req w,
       changes_only ["name"; "color"] (lists w) (lists (snd (UpdateList req w)))
       ∧ todos (snd (UpdateList req w)) = todos w).
Proof.
  exact (conj CompleteTodo_frame (conj UncompleteTodo_frame
          (conj UpdateTodoPriority_frame (conj UpdateTodoList_frame
             (conj UpdateTodo_frame UpdateList_frame))))).
Qed.

(** ** What a successful update stores *)

(** A [findOneAndUpdate] by id that finds a todo: the first todo with the id
    is replaced by itself with the fields of the update set. *)
Lemma findOneAndUpdate_by_id (oid : ObjectId) (upd : Doc) (w w' : World) (t : Doc) :
  upd !! "_id" = None →
  Model_findOneAndUpdate Todo (id_filter oid) upd w = (Ok (Some t), w') →
  ∃ pre d post,
    todos w = pre ++ d :: post
    ∧ Forall (λ x, x !! "_id" ≠ Some (BOid oid)) pre
    ∧ d !! "_id" = Some (BOid oid)
    ∧ t = apply_update upd d
    ∧ todos w' = pre ++ t :: post
    ∧ lists w' = lists w
    ∧ calls w' = calls w ++ [CallFindOneAndUpdate Todo (id_filter oid) upd].
Proof.
  intros Hid. unfold Model_findOneAndUpdate. cbn [collection].
  destruct (update_first _ _ (todos w)) as [[t' l']|] eqn:Hu; [| discriminate].
  intros H. injection H as <- <-.
  apply update_first_Some in Hu as (pre & d & post & Hw & Hpre & Hd & -> & ->).
  exists pre, d, post. repeat split; try assumption.
  - eapply Forall_impl; [exact Hpre |]. cbv beta. intros x Hx.
    rewrite matches_id_filter in Hx. apply bool_decide_eq_false in Hx. exact Hx.
  - rewrite matches_id_filter in Hd. apply bool_decide_eq_true in Hd. exact Hd.
Qed.

Lemma apply_update_set (upd d : Doc) (k : string) (v : Bson) :
  upd !! k = Some v → apply_update upd d !! k = Some v.
Proof. intros H. unfold apply_update. apply lookup_union_Some_l. exact H. Qed.

Lemma apply_update_kept (upd d : Doc) (k : string) :
  upd !! k = None → apply_update upd d !! k = d !! k.
Proof. intros H. unfold apply_update. apply lookup_union_r. exact H. Qed.

(** X8: when UpdateTodoPriority answers 200, the priority of the request is
    truthy and a member of the enum, the first todo with the requested id is
    the one changed, and the answered todo, which is the stored one, holds
    that priority. *)
Theorem UpdateTodoPriority_sets_priority `{E : Externals}
    (req : Request) (w w' : World) (msg : option string) (t : Doc) :
  UpdateTodoPriority req w = (Json 200 (BodyOne msg "todo" t), w') →
  let p := prop (body req) "priority" in
  truthy p = true
  ∧ p ∈ TodoPriority_values
  ∧ t !! "priority" = bson_of_js p
  ∧ msg = Some ("Updated " +:+ quoted_name t +:+ " priority!")
  ∧ ∃ oid pre d post,
      ObjectId_new (requested_id req "todoId") = Some oid
      ∧ todos w = pre ++ d :: post
      ∧ Forall (λ x, x !! "_id" ≠ Some (BOid oid)) pre
      ∧ d !! "_id" = Some (BOid oid)
      ∧ todos w' = pre ++ t :: post.
Proof.
  unfold UpdateTodoPriority.
  destruct (error _); [run; discriminate |].
  destruct (truthy (prop (body req) "priority")) eqn:Ht; cbn [negb]; [| run; discriminate].
  destruct (bool_decide _) eqn:Hin; cbn [negb]; [| run; discriminate].
  apply bool_decide_eq_true in Hin.
  destruct (ObjectId_new _) as [oid|]; [| run; discriminate].
  cbv [handler bind ret throw or_throw].
  destruct (Model_findOneAndUpdate _ _ _ w) as [[[t'|]|e] w1] eqn:Hf; try discriminate.
  intros H. injection H as <- <- <-.
  assert (Hp : ∃ b, bson_of_js (prop (body req) "priority") = Some b).
  { destruct (prop (body req) "priority"); try discriminate; eauto. }
  destruct Hp as [b Hb]. rewrite Hb in Hf |- *. cbn [set_field] in Hf.
  apply findOneAndUpdate_by_id in Hf as (pre & d & post & Hw & Hpre & Hd & -> & Hw' & _);
    [| rewrite lookup_insert_ne by discriminate; apply lookup_empty].
  cbv zeta. repeat split; try assumption.
  - apply apply_update_set. apply lookup_insert_eq.
  - exists oid, pre, d, post. repeat split; assumption.
Qed.

(** X8 (witness): alice sets the priority of a todo of bob to 2. *)
Lemma UpdateTodoPriority_sets_priority_witness :
  let E := Reference.externals 0 in
  let req := Examples.on "todoId" "507f1f77bcf86cd799439013"
               {[ "priority" := JNum 2 ]} Examples.alice in
  let w := Examples.store [Examples.bobs_todo] in
  ∃ t, fst (UpdateTodoPriority req w) =
         Json 200 (BodyOne (Some ("Updated " +:+ quoted_name t +:+ " priority!")) "todo" t)
       ∧ t !! "priority" = Some (BNum 2)
       ∧ todos (snd (UpdateTodoPriority req w)) = [t].
Proof.
  intros E req w.
  set (t := <["priority" := BNum 2]> Examples.bobs_todo).
  assert (Hr : UpdateTodoPriority req w =
               (Json 200 (BodyOne (Some ("Updated " +:+ quoted_name t +:+ " priority!"))
                            "todo" t), snd (UpdateTodoPriority req w)))
    by (vm_compute; reflexivity).
  exists t. split; [rewrite Hr; reflexivity |]. split.
  - exact (proj1 (proj2 (proj2 (UpdateTodoPriority_sets_priority (E := E) req w _ _ _ Hr)))).
  - vm_compute. reflexivity.
Defined.

(** X9: when UpdateTodoList answers 200, the [listId] of the body passed
    the validator and the answered todo holds [null] if the body said [null],
    and otherwise the id that the ObjectId constructor made of the body's
    [listId]; an absent [listId] is not [null], so the constructor is then
    called without an argument. *)
Theorem UpdateTodoList_sets_list `{E : Externals}
    (req : Request) (w w' : World) (msg : option string) (t : Doc) :
  UpdateTodoList req w = (Json 200 (BodyOne msg "todo" t), w') →
  let listId := prop (body req) "listId" in
  error (TodoValidator.ListId todoValidator listId) = false
  ∧ (listId = JNull → t !! "listId" = Some BNull)
  ∧ (listId ≠ JNull → ∃ l, ObjectId_new listId = Some l ∧ t !! "listId" = Some (BOid l))
  ∧ msg = Some ("Updated " +:+ quoted_name t +:+ " list!")
  ∧ ∃ oid, ObjectId_new (requested_id req "todoId") = Some oid
           ∧ t !! "_id" = Some (BOid oid) ∧ t ∈ todos w'.
Proof.
  unfold UpdateTodoList.
  destruct (error (TodoValidator.Id _ _)); [run; discriminate |].
  destruct (error (TodoValidator.ListId _ _)) eqn:Hv; [run; discriminate |].
  destruct (ObjectId_new (requested_id req "todoId")) as [oid|]; [| run; discriminate].
  assert (Hstep : ∀ (b : Bson),
    handler (bind (Model_findOneAndUpdate Todo (id_filter oid) {[ "listId" := b ]})
               (λ foundTodo, match foundTodo with
                  | None => throw (HttpError 404
                              (Some (not_found "Todo" (requested_id req "todoId"))) [])
                  | Some t0 => ret (Json 200 (BodyOne
                      (Some ("Updated " +:+ quoted_name t0 +:+ " list!")) "todo" t0))
                  end)) w = (Json 200 (BodyOne msg "todo" t), w') →
    t !! "listId" = Some b
    ∧ msg = Some ("Updated " +:+ quoted_name t +:+ " list!")
    ∧ t !! "_id" = Some (BOid oid) ∧ t ∈ todos w').
  { intros b. cbv [handler bind ret throw].
    destruct (Model_findOneAndUpdate _ _ _ w) as [[[t'|]|e] w1] eqn:Hf; try discriminate.
    intros H. injection H as <- <- <-.
    apply findOneAndUpdate_by_id in Hf
      as (pre & d & post & Hw & Hpre & Hd & -> & Hw' & _);
      [| apply lookup_singleton_ne; discriminate].
    repeat split.
    - apply apply_update_set. apply lookup_singleton_eq.
    - rewrite apply_update_kept by (apply lookup_singleton_ne; discriminate). exact Hd.
    - rewrite Hw'. apply elem_of_app. right. apply elem_of_cons. left. reflexivity. }
  cbv zeta.
  destruct (prop (body req) "listId") as [| |b|n|s] eqn:Hl.
  2:{ intros H. apply (Hstep BNull) in H as (H1 & H2 & H3 & H4).
      repeat split; try assumption; [auto | congruence | exists oid; auto]. }
  all: match goal with
       | |- context [ObjectId_new ?v] => destruct (ObjectId_new v) as [l|] eqn:Hnew
       end; [| run; discriminate].
  all: intros H; apply (Hstep (BOid l)) in H as (H1 & H2 & H3 & H4).
  all: repeat split; try assumption; try discriminate; [eauto | exists oid; auto].
Qed.

(** X9 (witness): a body without [listId] moves the todo to a list with a
    newly made id instead of leaving it or detaching it. *)
Lemma UpdateTodoList_sets_list_witness :
  let E := Reference.externals 0 in
  let req := Examples.on "todoId" "507f1f77bcf86cd799439021" ∅ Examples.alice in
  let w := Examples.store [Examples.milk] in
  Examples.milk !! "listId" = Some (BOid Examples.groceries)
  ∧ ∃ t, fst (UpdateTodoList req w) =
           Json 200 (BodyOne (Some ("Updated " +:+ quoted_name t +:+ " list!")) "todo" t)
         ∧ t !! "listId" = Some (BOid Reference.generated).
Proof.
  intros E req w. split; [reflexivity |].
  set (t := <["listId" := BOid Reference.generated]> Examples.milk).
  assert (Hr : UpdateTodoList req w =
               (Json 200 (BodyOne (Some ("Updated " +:+ quoted_name t +:+ " list!"))
                            "todo" t), snd (UpdateTodoList req w)))
    by (vm_compute; reflexivity).
  exists t. split; [rewrite Hr; reflexivity |].
  destruct (UpdateTodoList_sets_list (E := E) req w _ _ _ Hr) as (_ & _ & H & _).
  destruct (H ltac:(discriminate)) as (l & Hl & Ht).
  injection Hl as <-. exact Ht.
Defined.

Lemma set_field_lookup_eq (k : string) (v : option Bson) (d : Doc) :
  d !! k = None → set_field k v d !! k = v.
Proof.
  intros H. destruct v; simpl; [apply lookup_insert_eq | exact H].
Qed.

Lemma bson_of_js_or_null (v : JSValue) :
  bson_of_js (js_or v JNull) = if truthy v then bson_of_js v else Some BNull.
Proof. unfold js_or. destruct (truthy v); reflexivity. Qed.

Lemma bson_of_truthy (v : JSValue) : truthy v = true → is_Some (bson_of_js v).
Proof. destruct v; simpl; intros H; try discriminate; eauto. Qed.

(** The update document of UpdateTodo, field by field. *)
Lemma UpdateTodo_upd_lookup (uid : ObjectId) (a b c e f : option Bson) (due : Z) :
  let upd :=
    set_field "listId" a
      (<["userId" := BOid uid]>
         (set_field "name" b
            (set_field "notes" c
               (set_field "url" e
                  (<["due" := BDate due]> (set_field "priority" f ∅)))))) in
  upd !! "_id" = None ∧ upd !! "notes" = c ∧ upd !! "url" = e
  ∧ upd !! "due" = Some (BDate due) ∧ upd !! "priority" = f.
Proof.
  cbv zeta. repeat split.
  - rewrite !set_field_lookup_ne, lookup_insert_ne, !set_field_lookup_ne,
      lookup_insert_ne, set_field_lookup_ne by discriminate. apply lookup_empty.
  - rewrite set_field_lookup_ne, lookup_insert_ne, set_field_lookup_ne by discriminate.
    apply set_field_lookup_eq.
    rewrite set_field_lookup_ne, lookup_insert_ne, set_field_lookup_ne by discriminate.
    apply lookup_empty.
  - rewrite set_field_lookup_ne, lookup_insert_ne, !set_field_lookup_ne by discriminate.
    apply set_field_lookup_eq.
    rewrite lookup_insert_ne, set_field_lookup_ne by discriminate. apply lookup_empty.
  - rewrite set_field_lookup_ne, lookup_insert_ne, !set_field_lookup_ne by discriminate.
    apply lookup_insert_eq.
  - rewrite set_field_lookup_ne, lookup_insert_ne, !set_field_lookup_ne,
      lookup_insert_ne by discriminate.
    apply set_field_lookup_eq. apply lookup_empty.
Qed.

(** X10: when UpdateTodo answers 200, all eight validations passed, and the
    answered todo is the stored one: afterwards it stands in the todos at the
    place of the first todo that had the requested id, and nothing else in
    the store is changed.  That todo has [notes] and [url] set to [null]
    whenever the body's are falsy (an update without notes erases the notes
    that were stored), its [due] set to the date that moment reads from the
    body, and a truthy [priority] of the body as its priority. *)
Theorem UpdateTodo_stores_the_form `{E : Externals}
    (req : Request) (w w' : World) (msg : option string) (t : Doc) :
  UpdateTodo req w = (Json 200 (BodyOne msg "todo" t), w') →
  all_valid (UpdateTodo_validations req) = true
  ∧ (∀ k, k = "notes" ∨ k = "url" →
          t !! k = if truthy (prop (body req) k) then bson_of_js (prop (body req) k)
                   else Some BNull)
  ∧ (∃ due, moment_toDate (prop (body req) "due") = Some due
            ∧ t !! "due" = Some (BDate due))
  ∧ (truthy (prop (body req) "priority") = true →
     t !! "priority" = bson_of_js (prop (body req) "priority"))
  ∧ msg = Some ("Updated " +:+ quoted_name t)
  ∧ (∃ oid pre d post,
       ObjectId_new (requested_id req "todoId") = Some oid
       ∧ todos w = pre ++ d :: post
       ∧ Forall (λ x, x !! "_id" ≠ Some (BOid oid)) pre
       ∧ d !! "_id" = Some (BOid oid)
       ∧ t !! "_id" = Some (BOid oid)
       ∧ todos w' = pre ++ t :: post)
  ∧ lists w' = lists w.
Proof.
  unfold UpdateTodo.
  destruct (all_valid (UpdateTodo_validations req)); cbn [negb]; [| run; discriminate].
  change (formData_get (UpdateTodo_formData req) "_id") with (requested_id req "todoId").
  destruct (ObjectId_new (requested_id req "todoId")) as [oid|]; [| run; discriminate].
  destruct (ObjectId_new _) as [uid|]; [| run; discriminate].
  change (formData_get (UpdateTodo_formData req) "due") with (prop (body req) "due").
  destruct (moment_toDate (prop (body req) "due")) as [due|]; [| run; discriminate].
  change (formData_get (UpdateTodo_formData req) "notes")
    with (js_or (prop (body req) "notes") JNull).
  change (formData_get (UpdateTodo_formData req) "url")
    with (js_or (prop (body req) "url") JNull).
  change (formData_get (UpdateTodo_formData req) "priority")
    with (js_or (prop (body req) "priority") TodoPriority_NONE).
  cbv [handler bind ret throw or_throw].
  match goal with
  | |- context [Model_findOneAndUpdate Todo _ ?u w] => set (upd := u)
  end.
  destruct (UpdateTodo_upd_lookup uid
              (bson_of_js (formData_get (UpdateTodo_formData req) "listId"))
              (bson_of_js (formData_get (UpdateTodo_formData req) "name"))
              (bson_of_js (js_or (prop (body req) "notes") JNull))
              (bson_of_js (js_or (prop (body req) "url") JNull))
              (bson_of_js (js_or (prop (body req) "priority") TodoPriority_NONE)) due)
    as (Hid & Hnotes & Hurl & Hdue & Hprio).
  fold upd in Hid, Hnotes, Hurl, Hdue, Hprio.
  destruct (Model_findOneAndUpdate _ _ _ w) as [[[t'|]|e] w1] eqn:Hf; try discriminate.
  intros H. injection H as <- <- <-.
  apply findOneAndUpdate_by_id in Hf
    as (pre & d & post & Hw & Hpre & Hd & -> & Hw' & Hl & _); [| exact Hid].
  split; [reflexivity |].
  split; [| split; [| split; [| split; [reflexivity | split; [| exact Hl]]]]];
    [| | | exists oid, pre, d, post; repeat split; try assumption;
           rewrite apply_update_kept by exact Hid; exact Hd].
  - intros k [-> | ->].
    + rewrite bson_of_js_or_null in Hnotes.
      destruct (truthy (prop (body req) "notes")) eqn:Ht.
      * destruct (bson_of_truthy _ Ht) as [b Hb]. rewrite Hb in Hnotes |- *.
        apply apply_update_set. exact Hnotes.
      * apply apply_update_set. exact Hnotes.
    + rewrite bson_of_js_or_null in Hurl.
      destruct (truthy (prop (body req) "url")) eqn:Ht.
      * destruct (bson_of_truthy _ Ht) as [b Hb]. rewrite Hb in Hurl |- *.
        apply apply_update_set. exact Hurl.
      * apply apply_update_set. exact Hurl.
  - exists due. split; [reflexivity |]. apply apply_update_set. exact Hdue.
  - intros Ht. unfold js_or in Hprio. rewrite Ht in Hprio.
    destruct (bson_of_truthy _ Ht) as [b Hb]. rewrite Hb in Hprio |- *.
    apply apply_update_set. exact Hprio.
Qed.

(** X10 (witness): the update of bob's todo by alice, whose body has no notes. *)
Lemma UpdateTodo_stores_the_form_witness :
  let E := Reference.externals 0 in
  let req := Examples.on "todoId" "507f1f77bcf86cd799439013"
               Examples.takeover_body Examples.alice in
  let w := Examples.store [<["notes" := BStr "twice a week"]> Examples.bobs_todo] in
  fst (UpdateTodo req w) =
    Json 200 (BodyOne (Some ("Updated " +:+ quoted_name Examples.taken_todo))
                "todo" Examples.taken_todo)
  ∧ Examples.taken_todo !! "notes" = Some BNull
  ∧ Examples.taken_todo !! "due" = Some (BDate Examples.jan3)
  ∧ todos (snd (UpdateTodo req w)) = [Examples.taken_todo]
  ∧ lists (snd (UpdateTodo req w)) = lists w.
Proof.
  intros E req w.
  assert (Hr : UpdateTodo req w =
               (Json 200 (BodyOne (Some ("Updated " +:+ quoted_name Examples.taken_todo))
                            "todo" Examples.taken_todo),
                snd (UpdateTodo req w))) by (vm_compute; reflexivity).
  split; [rewrite Hr; reflexivity |].
  destruct (UpdateTodo_stores_the_form (E := E) req w _ _ _ Hr)
    as (_ & Hn & (due & Hd1 & Hd2) & _ & _ & _ & Hl).
  split; [exact (Hn "notes" (or_introl eq_refl)) |].
  split; [injection Hd1 as <-; exact Hd2 |].
  split; [vm_compute; reflexivity | exact Hl].
Defined.

(** ** Forms that fail validation *)

(** X11: UpdateTodo, UpdateList, AddTodo and AddList validate every field
    of their form and, unless all pass, fail with status 400 carrying the
    results of all the fields, failed or not (eight, four, seven and three of
    them), without calling or changing the store.  The todo operations give
    [createError] no message, so the error's message is the reason phrase
    'Bad Request'; UpdateList says 'Please correct list validations!' and
    AddList 'Plese correct list validations!'. *)
Theorem invalid_forms_carry_every_validation `{E : Externals} `{S : Schemas}
    (req : Request) (w : World) :
  ((all_valid (UpdateTodo_validations req) = false →
    UpdateTodo req w =
      (Next (HttpError 400 (Some "Bad Request") (UpdateTodo_validations req)), w))
   ∧ map fst (UpdateTodo_validations req)
     = ["_id"; "userId"; "listId"; "name"; "notes"; "url"; "due"; "priority"])
  ∧ ((all_valid (UpdateList_validations req) = false →
      UpdateList req w =
        (Next (HttpError 400 (Some "Please correct list validations!")
                 (UpdateList_validations req)), w))
     ∧ map fst (UpdateList_validations req) = ["_id"; "userId"; "name"; "color"])
  ∧ ((all_valid (AddTodo_validations req) = false →
      AddTodo req w =
        (Next (HttpError 400 (Some "Bad Request") (AddTodo_validations req)), w))
     ∧ map fst (AddTodo_validations req)
       = ["userId"; "listId"; "name"; "notes"; "url"; "due"; "priority"])
  ∧ ((all_valid (AddList_validations req) = false →
      AddList req w =
        (Next (HttpError 400 (Some "Plese correct list validations!")
                 (AddList_validations req)), w))
     ∧ map fst (AddList_validations req) = ["userId"; "name"; "color"]).
Proof.
  repeat split; intros H; unfold UpdateTodo, UpdateList, AddTodo, AddList;
    rewrite H; reflexivity.
Qed.

(** X11 (witness): a todo without a name and with a priority outside the
    enum; both failures are reported, and the passing fields too. *)
Lemma invalid_forms_carry_every_validation_witness :
  let E := Reference.externals 0 in
  let S := Reference.schemas in
  let req := mkRequest ∅ ∅ {[ "priority" := JStr "urgent" ]} Examples.alice in
  ∃ vs, AddTodo req (Examples.store [])
          = (Next (HttpError 400 (Some "Bad Request") vs), Examples.store [])
        ∧ vs !! 2%nat = Some ("name", Reference.invalid "Name cannot be empty!")
        ∧ vs !! 3%nat = Some ("notes", Reference.ok)
        ∧ vs !! 6%nat = Some ("priority", Reference.invalid "Invalid priority!").
Proof.
  intros E S req. exists (AddTodo_validations req). split.
  - exact (proj1 (proj1 (proj2 (proj2
             (invalid_forms_carry_every_validation (E := E) (S := S) req _)))) eq_refl).
  - repeat split.
Defined.

(** ** AddTodo and AddList *)

Lemma AddTodo_fields_lookup `{E : Externals} (req : Request) (uid : ObjectId) (due : Z) :
  let fields := AddTodo_fields req uid due in
  fields !! "userId" = Some (BOid uid)
  ∧ fields !! "due" = Some (BDate due)
  ∧ fields !! "_id" = None
  ∧ fields !! "completed" = None
  ∧ ∀ k, k = "listId" ∨ k = "notes" ∨ k = "url" →
         fields !! k = if truthy (prop (body req) k) then bson_of_js (prop (body req) k)
                       else Some BNull.
Proof.
  cbv zeta. unfold AddTodo_fields.
  change (formData_get (AddTodo_formData req) "listId")
    with (js_or (prop (body req) "listId") JNull).
  change (formData_get (AddTodo_formData req) "notes")
    with (js_or (prop (body req) "notes") JNull).
  change (formData_get (AddTodo_formData req) "url")
    with (js_or (prop (body req) "url") JNull).
  repeat split.
  - apply lookup_insert_eq.
  - rewrite lookup_insert_ne, !set_field_lookup_ne by discriminate. apply lookup_insert_eq.
  - rewrite lookup_insert_ne, !set_field_lookup_ne, lookup_insert_ne,
      set_field_lookup_ne by discriminate. apply lookup_empty.
  - rewrite lookup_insert_ne, !set_field_lookup_ne, lookup_insert_ne,
      set_field_lookup_ne by discriminate. apply lookup_empty.
  - intros k [-> | [-> | ->]]; rewrite <- bson_of_js_or_null.
    + rewrite lookup_insert_ne by discriminate. apply set_field_lookup_eq.
      rewrite !set_field_lookup_ne, lookup_insert_ne, set_field_lookup_ne by discriminate.
      apply lookup_empty.
    + rewrite lookup_insert_ne, !set_field_lookup_ne by discriminate.
      apply set_field_lookup_eq.
      rewrite !set_field_lookup_ne, lookup_insert_ne, set_field_lookup_ne by discriminate.
      apply lookup_empty.
    + rewrite lookup_insert_ne, !set_field_lookup_ne by discriminate.
      apply set_field_lookup_eq.
      rewrite lookup_insert_ne, set_field_lookup_ne by discriminate.
      apply lookup_empty.
Qed.

(** X12: AddTodo either fails and leaves the store as it was, or answers 201:
    then every validation passed, the model was given the requester's id as
    [userId] (rebuilt from its hex form), the date moment reads as [due],
    [null] for each of [listId], [notes] and [url] that is falsy in the body,
    and neither an [_id] nor a [completed] flag; the document the model made
    is the one answered and the one todo added, at the end of the todos. *)
Theorem AddTodo_adds_one_todo `{E : Externals} `{S : Schemas} (req : Request) (w : World) :
  match fst (AddTodo req w) with
  | Next _ => snd (AddTodo req w) = w
  | Json s b =>
      s = 201%nat
      ∧ all_valid (AddTodo_validations req) = true
      ∧ ∃ uid due d,
          ObjectId_new (JStr (toHexString (_id (user req)))) = Some uid
          ∧ moment_toDate (prop (body req) "due") = Some due
          ∧ new_document Todo (AddTodo_fields req uid due) w = Some d
          ∧ b = BodyOne (Some ("Added " +:+ quoted_name d)) "todo" d
          ∧ todos (snd (AddTodo req w)) = todos w ++ [d]
          ∧ lists (snd (AddTodo req w)) = lists w
          ∧ AddTodo_fields req uid due !! "userId" = Some (BOid uid)
          ∧ AddTodo_fields req uid due !! "due" = Some (BDate due)
          ∧ AddTodo_fields req uid due !! "_id" = None
          ∧ AddTodo_fields req uid due !! "completed" = None
          ∧ ∀ k, k = "listId" ∨ k = "notes" ∨ k = "url" →
                 AddTodo_fields req uid due !! k
                 = if truthy (prop (body req) k) then bson_of_js (prop (body req) k)
                   else Some BNull
  end.
Proof.
  unfold AddTodo.
  destruct (all_valid (AddTodo_validations req)); cbn [negb]; [| run; reflexivity].
  change (formData_get (AddTodo_formData req) "userId")
    with (JStr (toHexString (_id (user req)))).
  change (formData_get (AddTodo_formData req) "due") with (prop (body req) "due").
  destruct (ObjectId_new _) as [uid|]; [| run; reflexivity].
  destruct (moment_toDate _) as [due|]; [| run; reflexivity].
  cbv [handler bind ret throw or_throw Model_create].
  destruct (new_document Todo _ w) as [d|] eqn:Hd; cbn; [| reflexivity].
  destruct (AddTodo_fields_lookup req uid due) as (H1 & H2 & H3 & H4 & H5).
  split; [reflexivity |]. split; [reflexivity |].
  exists uid, due, d. repeat split; assumption.
Qed.

(** A todo with a name alone is added with [null] for its list, notes and url. *)
Example AddTodo_of_a_name :
  let E := Reference.externals Examples.jan2_noon in
  let S := Reference.schemas in
  let req := mkRequest ∅ ∅ {[ "name" := JStr "Call mum" ]} Examples.alice in
  ∃ d, AddTodo req (Examples.store []) =
         (Json 201 (BodyOne (Some ("Added " +:+ quoted_name d)) "todo" d),
          Examples.store [d])
       ∧ d !! "listId" = Some BNull ∧ d !! "notes" = Some BNull
       ∧ d !! "priority" = Some (BNum 0) ∧ d !! "completed" = Some (BBool false)
       ∧ d !! "userId" = Some (BOid (_id Examples.alice)).
Proof.
  intros E S req.
  exists (match fst (AddTodo req (Examples.store [])) with
          | Json _ (BodyOne _ _ d) => d
          | _ => ∅
          end).
  vm_compute. repeat split.
Qed.

(** X13: AddList either fails and leaves the store as it was, or answers 201
    with the document the model made of [{ userId, name, color }], where
    [userId] is the requester's id rebuilt from its hex form and [name] and
    [color] are the body's; that document is the one list added, at the end
    of the lists, and no todo is touched. *)
Theorem AddList_adds_one_list `{E : Externals} `{S : Schemas} (req : Request) (w : World) :
  match fst (AddList req w) with
  | Next _ => snd (AddList req w) = w
  | Json s b =>
      s = 201%nat
      ∧ all_valid (AddList_validations req) = true
      ∧ ∃ uid d,
          ObjectId_new (JStr (toHexString (_id (user req)))) = Some uid
          ∧ new_document List (AddList_fields req uid) w = Some d
          ∧ AddList_fields req uid !! "userId" = Some (BOid uid)
          ∧ AddList_fields req uid !! "name" = bson_of_js (prop (body req) "name")
          ∧ AddList_fields req uid !! "color" = bson_of_js (prop (body req) "color")
          ∧ b = BodyOne None "list" d
          ∧ lists (snd (AddList req w)) = lists w ++ [d]
          ∧ todos (snd (AddList req w)) = todos w
  end.
Proof.
  unfold AddList.
  destruct (all_valid (AddList_validations req)); cbn [negb]; [| run; reflexivity].
  change (formData_get (AddList_formData req) "userId")
    with (JStr (toHexString (_id (user req)))).
  destruct (ObjectId_new _) as [uid|]; [| run; reflexivity].
  cbv [handler bind ret throw or_throw Model_create].
  destruct (new_document List _ w) as [d|] eqn:Hd; cbn; [| reflexivity].
  repeat split. exists uid, d. repeat split; try exact Hd.
  - apply lookup_insert_eq.
  - unfold AddList_fields. rewrite lookup_insert_ne by discriminate.
    apply set_field_lookup_eq. rewrite set_field_lookup_ne by discriminate.
    apply lookup_empty.
  - unfold AddList_fields.
    rewrite lookup_insert_ne, set_field_lookup_ne by discriminate.
    apply set_field_lookup_eq. apply lookup_empty.
Qed.

(** ** Deleting *)



(** X15: when DeleteList answers 200, the answered list is the first stored
    list that has the requested id and the requester as owner; it alone is
    removed, and the todos, those of the removed list included, stay. *)
Theorem DeleteList_removes_one `{E : Externals}
    (req : Request) (w w' : World) (msg : option string) (k : string) (l : Doc) :
  DeleteList req w = (Json 200 (BodyOne msg k l), w') →
  ∃ oid pre post,
    ObjectId_new (requested_id_url req "listId") = Some oid
    ∧ lists w = pre ++ l :: post
    ∧ Forall (λ x, ¬ (x !! "_id" = Some (BOid oid) ∧ owned_by (_id (user req)) x = true)) pre
    ∧ l !! "_id" = Some (BOid oid)
    ∧ owned_by (_id (user req)) l = true
    ∧ lists w' = pre ++ post
    ∧ todos w' = todos w
    ∧ msg = None ∧ k = "list".
Proof.
  unfold DeleteList.
  destruct (error _) eqn:Hv; [run; discriminate |].
  destruct (ObjectId_new _) as [oid|] eqn:Hoid; [| run; discriminate].
  run. destruct (delete_first _ (lists w)) as [[l' r]|] eqn:Hd; [| discriminate].
  intros H. injection H as <- <- <- <-.
  apply delete_first_Some in Hd as (pre & post & Hw & Hpre & Hl & ->).
  rewrite matches_owned_filter in Hl. apply andb_true_iff in Hl as [H1 H2].
  apply bool_decide_eq_true in H1.
  exists oid, pre, post. cbn [todos lists]. repeat split; try assumption.
  eapply Forall_impl; [exact Hpre |]. cbv beta. intros x Hx [Hx1 Hx2].
  rewrite matches_owned_filter in Hx.
  apply (bool_decide_eq_true_2 _) in Hx1. unfold owned_by in Hx2.
  rewrite Hx1, Hx2 in Hx. discriminate Hx.
Qed.

(** X15 (witness): bob deletes his list; a todo that refers to it stays. *)
Lemma DeleteList_removes_one_witness :
  let E := Reference.externals 0 in
  let req := Examples.on "listId" "cccccccccccccccccccccccc" ∅ Examples.bob in
  let w := mkWorld [Examples.milk] [Examples.bobs_list] [] in
  Examples.milk !! "listId" = Some (BOid Examples.groceries)
  ∧ (∃ pre post, lists w = pre ++ Examples.bobs_list :: post
                 ∧ lists (snd (DeleteList req w)) = pre ++ post)
  ∧ lists (snd (DeleteList req w)) = []
  ∧ todos (snd (DeleteList req w)) = [Examples.milk].
Proof.
  intros E req w.
  assert (Hr : DeleteList req w =
               (Json 200 (BodyOne None "list" Examples.bobs_list), snd (DeleteList req w)))
    by (vm_compute; reflexivity).
  split; [reflexivity |]. split; [| split; vm_compute; reflexivity].
  destruct (DeleteList_removes_one (E := E) req w _ _ _ _ Hr)
    as (oid & pre & post & _ & Hw & _ & _ & _ & Hw' & _).
  exists pre, post. split; assumption.
Defined.

(** ** Completing and uncompleting in a row *)

Lemma updated_twice (p : Doc → bool) (u1 u2 : Doc → Doc) (l : list Doc) :
  (∀ d, p (u1 d) = p d) → (∀ d, u2 (u1 d) = u2 d) →
  updated p u2 (updated p u1 l) = updated p u2 l.
Proof.
  intros Hp Hu. unfold updated at 2 3.
  destruct (update_first p u1 l) as [[t l1]|] eqn:H1; [| reflexivity].
  apply update_first_Some in H1 as (pre & d & post & -> & Hpre & Hd & -> & ->).
  unfold updated.
  rewrite (update_first_split p u2 pre post (u1 d) Hpre) by (rewrite Hp; exact Hd).
  rewrite (update_first_split p u2 pre post d Hpre Hd).
  rewrite Hu. reflexivity.
Qed.

Lemma flag_over_flag (a b : bool) (d : Doc) :
  apply_update {[ "completed" := BBool b ]} (apply_update {[ "completed" := BBool a ]} d)
  = apply_update {[ "completed" := BBool b ]} d.
Proof.
  unfold apply_update. apply map_eq. intros i. rewrite !lookup_union.
  destruct (decide (i = "completed")) as [-> | Hn].
  - rewrite !lookup_singleton_eq. destruct (d !! "completed"); reflexivity.
  - rewrite !lookup_singleton_ne by congruence. destruct (d !! i); reflexivity.
Qed.

Section Flags.
Context `{E : Externals}.

Lemma CompleteTodo_todos (req : Request) (w : World) :
  todos (snd (CompleteTodo req w)) =
    if error (TodoValidator.Id todoValidator (requested_id req "todoId")) then todos w
    else match ObjectId_new (requested_id req "todoId") with
         | Some oid => updated (matches (id_filter oid))
                         (apply_update {[ "completed" := BBool true ]}) (todos w)
         | None => todos w
         end.
Proof.
  unfold CompleteTodo, updated.
  destruct (error _); [reflexivity |].
  destruct (ObjectId_new _); [| reflexivity].
  run. destruct (update_first _ _ _) as [[d l]|]; reflexivity.
Qed.

Lemma UncompleteTodo_todos (req : Request) (w : World) :
  todos (snd (UncompleteTodo req w)) =
    if error (TodoValidator.Id todoValidator (requested_id req "todoId")) then todos w
    else match ObjectId_new (requested_id req "todoId") with
         | Some oid => updated (matches (id_filter oid))
                         (apply_update {[ "completed" := BBool false ]}) (todos w)
         | None => todos w
         end.
Proof.
  unfold UncompleteTodo, updated.
  destruct (error _); [reflexivity |].
  destruct (ObjectId_new _); [| reflexivity].
  run. destruct (update_first _ _ _) as [[d l]|]; reflexivity.
Qed.

End Flags.

(** X16: of CompleteTodo and UncompleteTodo for the same request, the last
    one decides: the todos after uncompleting a todo that was just completed
    are the todos after uncompleting it alone, and the other way round. *)
Theorem the_last_flag_wins `{E : Externals} (req : Request) (w : World) :
  todos (snd (UncompleteTodo req (snd (CompleteTodo req w))))
    = todos (snd (UncompleteTodo req w))
  ∧ todos (snd (CompleteTodo req (snd (UncompleteTodo req w))))
    = todos (snd (CompleteTodo req w)).
Proof.
  rewrite !UncompleteTodo_todos, !CompleteTodo_todos, !UncompleteTodo_todos.
  destruct (error _); [split; reflexivity |].
  destruct (ObjectId_new _) as [oid|]; [| split; reflexivity].
  split; apply updated_twice; intros d;
    first [ apply id_filter_apply_update; apply lookup_singleton_ne; discriminate
          | apply flag_over_flag ].
Qed.

(** ** Token issuance, further *)

(** X17: [generateUserTokens] signs the access token over the four profile
    fields with the access secret for 7 days and the refresh token over the
    username alone with the refresh secret for 365 days; it resolves with
    these two tokens exactly when both signatures succeed and a user with
    the username is stored, and when it rejects, the stored users are as they
    were. *)
Theorem generateUserTokens_outcome
    (signJWT : list (string * string) → option string → string → option string)
    (access_secret refresh_secret : option string)
    (userData : Tokens.IUser) (users : list Tokens.IUser) :
  let access :=
    signJWT [("firstName", Tokens.firstName userData); ("lastName", Tokens.lastName userData);
             ("username", Tokens.username userData); ("email", Tokens.email userData)]
            access_secret "7d" in
  let refresh := signJWT [("username", Tokens.username userData)] refresh_secret "365d" in
  let found := Tokens.User_findOne (Tokens.username userData) users in
  let r := Tokens.generateUserTokens signJWT access_secret refresh_secret userData users in
  match fst r with
  | Tokens.Resolved toks =>
      access = Some (Tokens.accessToken toks)
      ∧ refresh = Some (Tokens.refreshToken toks)
      ∧ is_Some found
  | Tokens.Rejected _ =>
      snd r = users ∧ (access = None ∨ refresh = None ∨ found = None)
  end.
Proof.
  cbv zeta. unfold Tokens.generateUserTokens.
  destruct (signJWT _ access_secret _) as [a|]; [| cbn; auto].
  destruct (signJWT _ refresh_secret _) as [r|]; [| cbn; auto].
  destruct (Tokens.User_findOne _ users) as [u|]; cbn; eauto.
Qed.

Lemma User_split (name : string) (tokens : list string)
    (pre post : list Tokens.IUser) (u : Tokens.IUser) :
  Forall (λ x, Tokens.username x ≠ name) pre →
  Tokens.username u = name →
  Tokens.User_findOne name (pre ++ u :: post) = Some u
  ∧ Tokens.User_updateOne name tokens (pre ++ u :: post)
    = pre ++ Tokens.mkUser (Tokens.firstName u) (Tokens.lastName u) (Tokens.username u)
               (Tokens.email u) tokens :: post.
Proof.
  intros Hpre Hu. unfold Tokens.User_findOne.
  induction Hpre as [|x pre Hx _ IH]; simpl.
  - rewrite (proj2 (String.eqb_eq _ _) Hu). split; reflexivity.
  - rewrite (proj2 (String.eqb_neq _ _) Hx). destruct IH as [-> ->]. split; reflexivity.
Qed.

(** X18: nothing is pruned or deduplicated between two issuances: when
    [generateUserTokens] resolves for a user and then resolves again (with
    whatever the signer returns by then, the same token included), the user's
    stored list is the original one followed by the first and then the second
    refresh token, and nothing else has changed. *)
Theorem generateUserTokens_twice
    (sign1 sign2 : list (string * string) → option string → string → option string)
    (access_secret refresh_secret : option string)
    (userData : Tokens.IUser) (users users1 users2 : list Tokens.IUser)
    (toks1 toks2 : Tokens.UserTokens) :
  Tokens.generateUserTokens sign1 access_secret refresh_secret userData users
    = (Tokens.Resolved toks1, users1) →
  Tokens.generateUserTokens sign2 access_secret refresh_secret userData users1
    = (Tokens.Resolved toks2, users2) →
  ∃ pre u post,
    users = pre ++ u :: post
    ∧ Forall (λ x, Tokens.username x ≠ Tokens.username userData) pre
    ∧ Tokens.username u = Tokens.username userData
    ∧ users2 = pre ++ Tokens.mkUser (Tokens.firstName u) (Tokens.lastName u)
                        (Tokens.username u) (Tokens.email u)
                        (Tokens.refreshTokens u
                           ++ [Tokens.refreshToken toks1; Tokens.refreshToken toks2])
                     :: post.
Proof.
  intros H1 H2.
  unfold Tokens.generateUserTokens in H1.
  destruct (sign1 _ access_secret _) as [a1|]; [| discriminate].
  destruct (sign1 _ refresh_secret _) as [r1|]; [| discriminate].
  destruct (Tokens.User_findOne _ users) as [u|] eqn:Hfind; [| discriminate].
  injection H1 as <- <-.
  destruct (User_updateOne_first _ (Tokens.refreshTokens u ++ [r1]) _ _ Hfind)
    as (pre & post & Hu & Hpre & Hn & Hup1).
  cbn [Tokens.refreshToken]. rewrite Hup1 in H2.
  unfold Tokens.generateUserTokens in H2.
  destruct (sign2 _ access_secret _) as [a|]; [| discriminate].
  destruct (sign2 _ refresh_secret _) as [r|]; [| discriminate].
  match type of H2 with
  | context [Tokens.User_findOne ?n (pre ++ ?u1 :: post)] =>
      destruct (User_split n (Tokens.refreshTokens u1 ++ [r]) pre post u1 Hpre Hn)
        as [Hf Hup]
  end.
  rewrite Hf in H2. cbn [Tokens.refreshTokens] in H2, Hup. rewrite Hup in H2.
  injection H2 as <- <-. cbn [Tokens.refreshToken Tokens.firstName Tokens.lastName
                               Tokens.username Tokens.email].
  exists pre, u, post. repeat split; try assumption.
  rewrite <- app_assoc. reflexivity.
Qed.

(** X18 (witness): carol signs in twice within the validity of one token. *)
Lemma generateUserTokens_twice_witness :
  let users := [Examples.dave; Examples.carol] in
  let once := Tokens.generateUserTokens Examples.sign (Some "a") (Some "b")
                Examples.carol users in
  let twice := Tokens.generateUserTokens Examples.sign (Some "a") (Some "b")
                 Examples.carol (snd once) in
  snd twice = [Examples.dave;
               Tokens.mkUser "Carol" "Diaz" "carol" "carol@example.org"
                 ["r1"; "r2"; "jwt/b/365d"; "jwt/b/365d"]]
  ∧ ∃ pre u post,
      users = pre ++ u :: post
      ∧ snd twice = pre ++ Tokens.mkUser (Tokens.firstName u) (Tokens.lastName u)
                             (Tokens.username u) (Tokens.email u)
                             (Tokens.refreshTokens u ++ ["jwt/b/365d"; "jwt/b/365d"])
                          :: post.
Proof.
  intros users once twice. split; [reflexivity |].
  destruct (generateUserTokens_twice Examples.sign Examples.sign (Some "a") (Some "b")
              Examples.carol users (snd once) (snd twice)
              (Tokens.mkTokens "jwt/a/7d" "jwt/b/365d") (Tokens.mkTokens "jwt/a/7d" "jwt/b/365d")
              eq_refl eq_refl)
    as (pre & u & post & Hu & _ & _ & H2).
  exists pre, u, post. split; assumption.
Defined.

(** ** UpdateList and listings after a change *)

(** X19: when UpdateList answers 200, all four validations passed and the
    answered list is the first stored list with the requested id and with the
    owner id that the constructor makes of the requester's hex form (no list
    stored before it has both); it is stored in place, with the [name] and
    [color] of the body wherever the body defines them, and with its [_id]
    and [userId] as before; no todo is touched. *)
Theorem UpdateList_updates_one_list `{E : Externals}
    (req : Request) (w w' : World) (msg : option string) (k : string) (l : Doc) :
  UpdateList req w = (Json 200 (BodyOne msg k l), w') →
  all_valid (UpdateList_validations req) = true
  ∧ msg = None ∧ k = "list"
  ∧ ∃ oid uid pre d post,
      ObjectId_new (requested_id req "listId") = Some oid
      ∧ ObjectId_new (JStr (toHexString (_id (user req)))) = Some uid
      ∧ lists w = pre ++ d :: post
      ∧ lists w' = pre ++ l :: post
      ∧ Forall (λ x, ¬ (x !! "_id" = Some (BOid oid) ∧ x !! "userId" = Some (BOid uid))) pre
      ∧ todos w' = todos w
      ∧ l !! "_id" = Some (BOid oid) ∧ d !! "_id" = Some (BOid oid)
      ∧ l !! "userId" = Some (BOid uid) ∧ d !! "userId" = Some (BOid uid)
      ∧ (∀ f, f = "name" ∨ f = "color" →
              l !! f = match bson_of_js (prop (body req) f) with
                       | Some b => Some b
                       | None => d !! f
                       end).
Proof.
  unfold UpdateList.
  destruct (all_valid (UpdateList_validations req)); cbn [negb]; [| run; discriminate].
  change (formData_get (UpdateList_formData req) "userId")
    with (JStr (toHexString (_id (user req)))).
  change (formData_get (UpdateList_formData req) "_id") with (requested_id req "listId").
  change (formData_get (UpdateList_formData req) "name") with (prop (body req) "name").
  change (formData_get (UpdateList_formData req) "color") with (prop (body req) "color").
  destruct (ObjectId_new (requested_id req "listId")) as [oid|]; [| run; discriminate].
  destruct (ObjectId_new _) as [uid|]; [| run; discriminate].
  run. destruct (update_first _ _ (lists w)) as [[l' r]|] eqn:Hu; [| discriminate].
  intros H. injection H as <- <- <- <-.
  apply update_first_Some in Hu as (pre & d & post & Hw & Hpre & Hd & -> & ->).
  rewrite matches_owned_filter in Hd. apply andb_true_iff in Hd as [H1 H2].
  apply bool_decide_eq_true in H1. apply bool_decide_eq_true in H2.
  assert (Hfirst : Forall (λ x, ¬ (x !! "_id" = Some (BOid oid)
                                   ∧ x !! "userId" = Some (BOid uid))) pre).
  { eapply Forall_impl; [exact Hpre |]. cbv beta. intros x Hx [Hx1 Hx2].
    rewrite matches_owned_filter in Hx. apply andb_false_iff in Hx as [Hx | Hx];
      apply bool_decide_eq_false in Hx; contradiction. }
  split; [reflexivity |]. split; [reflexivity |]. split; [reflexivity |].
  exists oid, uid, pre, d, post. cbn [lists todos].
  split; [reflexivity |]. split; [reflexivity |]. split; [exact Hw |].
  split; [reflexivity |]. split; [exact Hfirst |]. split; [reflexivity |].
  repeat split; try assumption.
  - rewrite apply_update_kept; [exact H1 |].
    rewrite !set_field_lookup_ne by discriminate. apply lookup_empty.
  - rewrite apply_update_kept; [exact H2 |].
    rewrite !set_field_lookup_ne by discriminate. apply lookup_empty.
  - intros f [-> | ->]; unfold apply_update; rewrite lookup_union.
    + rewrite set_field_lookup_eq
        by (rewrite set_field_lookup_ne by discriminate; apply lookup_empty).
      destruct (bson_of_js (prop (body req) "name")), (d !! "name"); reflexivity.
    + rewrite set_field_lookup_ne by discriminate.
      rewrite set_field_lookup_eq by apply lookup_empty.
      destruct (bson_of_js (prop (body req) "color")), (d !! "color"); reflexivity.
Qed.

(** X19 (witness): bob recolours his list. *)
Lemma UpdateList_updates_one_list_witness :
  let E := Reference.externals 0 in
  let req := Examples.on "listId" "cccccccccccccccccccccccc"
               (<["name" := JStr "Groceries"]> {[ "color" := JStr "red" ]}) Examples.bob in
  let w := Examples.list_store [Examples.bobs_list] in
  ∃ l, fst (UpdateList req w) = Json 200 (BodyOne None "list" l)
       ∧ l !! "color" = Some (BStr "red")
       ∧ l !! "userId" = Some (BOid (_id Examples.bob)).
Proof.
  intros E req w.
  set (l := <["color" := BStr "red"]> Examples.bobs_list).
  assert (Hr : UpdateList req w =
               (Json 200 (BodyOne None "list" l), snd (UpdateList req w)))
    by (vm_compute; reflexivity).
  exists l. split; [rewrite Hr; reflexivity |].
  destruct (UpdateList_updates_one_list (E := E) req w _ _ _ _ Hr)
    as (_ & _ & _ & oid & uid & pre & d & post & _ & Hu & _ & _ & _ & _ & _ & _ & Hl & _ & Hf).
  injection Hu as <-. split; [| exact Hl].
  exact (Hf "color" (or_intror eq_refl)).
Defined.

(** X20: a todo that CompleteTodo has just answered as completed is in no
    listing of GetAllTodos afterwards, whatever the query of the listing. *)
Theorem completed_todos_are_not_listed `{E : Externals}
    (req req' : Request) (w w' : World) (msg : option string) (t : Doc) :
  CompleteTodo req w = (Json 200 (BodyOne msg "todo" t), w') →
  t ∈ todos w' ∧ t ∉ listed req' w'.
Proof.
  unfold CompleteTodo.
  destruct (error _); [run; discriminate |].
  destruct (ObjectId_new _) as [oid|]; [| run; discriminate].
  cbv [handler bind ret throw or_throw].
  destruct (Model_findOneAndUpdate _ _ _ w) as [[[t'|]|e] w1] eqn:Hf; try discriminate.
  intros H. injection H as <- <- <-.
  apply findOneAndUpdate_by_id in Hf as (pre & d & post & _ & _ & _ & -> & Hw' & _);
    [| apply lookup_singleton_ne; discriminate].
  split.
  - rewrite Hw'. apply elem_of_app. right. apply elem_of_cons. left. reflexivity.
  - intros Hin. unfold listed in Hin.
    destruct (GetAllTodos_ends req' w1) as (_ & _ & H).
    destruct (fst (GetAllTodos req' w1)) as [s [total k found|m k d']|err];
      try (apply not_elem_of_nil in Hin; exact Hin).
    destruct H as (_ & _ & _ & Hall). rewrite Forall_forall in Hall.
    destruct (Hall _ Hin) as [_ Hc].
    rewrite (apply_update_set _ _ "completed" (BBool true)) in Hc
      by apply lookup_singleton_eq.
    discriminate Hc.
Qed.

(** X20 (witness): the open todo of the groceries is completed and leaves
    the listing of that list. *)
Lemma completed_todos_are_not_listed_witness :
  let E := Reference.externals Examples.jan2_noon in
  let req := Examples.on "todoId" "507f1f77bcf86cd799439021" ∅ Examples.alice in
  let all := Examples.get {[ "due" := "all" ]} in
  let w := Examples.store [Examples.milk] in
  listed all w = [Examples.milk]
  ∧ ∃ t, fst (CompleteTodo req w) =
           Json 200 (BodyOne (Some ("Completed " +:+ quoted_name t)) "todo" t)
         ∧ t ∉ listed all (snd (CompleteTodo req w)).
Proof.
  intros E req all w. split; [vm_compute; reflexivity |].
  set (t := <["completed" := BBool true]> Examples.milk).
  assert (Hr : CompleteTodo req w =
               (Json 200 (BodyOne (Some ("Completed " +:+ quoted_name t)) "todo" t),
                snd (CompleteTodo req w))) by (vm_compute; reflexivity).
  exists t. split; [rewrite Hr; reflexivity |].
  exact (proj2 (completed_todos_are_not_listed (E := E) req all w _ _ _ Hr)).
Defined.
